(** * Keel: the card-selection decision engine of
    [OpenAIClient.analyze_location_and_recommend_card]
    (src/server/app/services/openai_client.py), shallowly embedded.

    Modelling choices:
    - Python [str] values are ASCII strings ([String.string]); [str.lower]
      maps A-Z to a-z and [str.strip] removes the characters Python treats
      as whitespace in the ASCII range (9-13, 28-32).
    - Python [float] multipliers are rationals [Q]; [math.isclose] is written
      as CPython's [mathmodule.c] computes it.
    - JSON objects read by [json.load] are stdpp [gmap]s with [string] keys. *)

From Stdlib Require Import QArith Qabs String Ascii List Permutation Lia.
From stdpp Require Import base gmap strings pretty.
From Stdlib Require Import Sorted.
Import ListNotations.

Open Scope string_scope.

(** ** Python string helpers *)

Definition py_lower_char (c : ascii) : ascii :=
  let n := nat_of_ascii c in
  if (65 <=? n)%nat && (n <=? 90)%nat then ascii_of_nat (n + 32) else c.

(** [str.lower] *)
Fixpoint py_lower (s : string) : string :=
  match s with
  | EmptyString => EmptyString
  | String c s' => String (py_lower_char c) (py_lower s')
  end.

(** [str.isspace] on one ASCII character. *)
Definition py_is_space (c : ascii) : bool :=
  let n := nat_of_ascii c in
  ((9 <=? n)%nat && (n <=? 13)%nat) || ((28 <=? n)%nat && (n <=? 32)%nat).

Fixpoint lstrip_chars (l : list ascii) : list ascii :=
  match l with
  | [] => []
  | c :: l' => if py_is_space c then lstrip_chars l' else l
  end.

(** [str.strip] *)
Definition py_strip (s : string) : string :=
  string_of_list_ascii
    (rev (lstrip_chars (rev (lstrip_chars (list_ascii_of_string s))))).

(** [lc] helper: [s.lower().strip()] *)
Definition lc (s : string) : string := py_strip (py_lower s).

(** Truthiness of a Python [str]. *)
Definition str_truthy (s : string) : bool :=
  match s with EmptyString => false | _ => true end.

(** [dict.get(key, default)] on a literal table written as a list of
    pairs (each key occurs once). *)
Fixpoint table_get {V} (t : list (string * V)) (k : string) : option V :=
  match t with
  | [] => None
  | (k', v) :: t' => if String.eqb k k' then Some v else table_get t' k
  end.

(** ** Card name normalizer ([normalize_card_name]) *)

Definition card_mappings : list (string * string) := [
  ("amex gold card", "Amex Gold");
  ("amex gold", "Amex Gold");
  ("american express gold card", "Amex Gold");
  ("american express gold", "Amex Gold");
  ("chase sapphire preferred", "Chase Sapphire Preferred");
  ("chase sapphire reserve", "Chase Sapphire Reserve");
  ("chase freedom", "Chase Freedom");
  ("chase freedom unlimited", "Chase Freedom Unlimited");
  ("chase freedom flex", "Chase Freedom");
  ("citi double cash", "Citi Double Cash");
  ("citi custom cash", "Citi Custom Cash");
  ("discover it cash back", "Discover it Cash Back");
  ("discover it miles", "Discover it Miles");
  ("capital one venture", "Capital One Venture");
  ("capital one venture x", "Capital One Venture X");
  ("amex platinum", "Amex Platinum");
  ("amex blue cash preferred", "Amex Blue Cash Preferred");
  ("amex blue cash everyday", "Amex Blue Cash Everyday");
  ("wells fargo active cash", "Wells Fargo Active Cash");
  ("bank of america customized cash", "Bank of America Customized Cash");
  ("us bank cash+", "US Bank Cash+");
  ("citi premier", "Citi Premier");
  ("amex green", "Amex Green");
  ("chase ink business preferred", "Chase Ink Business Preferred")].

Definition normalize_card_name (card_name : string) : string :=
  if negb (str_truthy card_name) then card_name
  else match table_get card_mappings (py_strip (py_lower card_name)) with
       | Some v => v
       | None => card_name
       end.

(** ** Category canonicalizer ([canonicalize_category]) *)

Definition mcc_map : list (string * string) := [
  ("5812", "dining"); ("5813", "dining"); ("5814", "dining");
  ("5411", "grocery");
  ("5541", "gas"); ("5542", "gas");
  ("7011", "hotels");
  ("4511", "flights");
  ("4111", "transit"); ("4121", "transit");
  ("5912", "drugstores");
  ("4900", "utilities")].

Definition type_map : list (string * string) := [
  ("restaurant", "dining");
  ("cafe", "dining");
  ("coffee_shop", "dining");
  ("grocery_or_supermarket", "grocery");
  ("supermarket", "grocery");
  ("gas_station", "gas");
  ("lodging", "hotels");
  ("airport", "flights");
  ("train_station", "transit");
  ("subway_station", "transit");
  ("bus_station", "transit")].

Definition cat_alias : list (string * string) := [
  ("restaurants", "dining");
  ("restaurant", "dining");
  ("coffee", "dining");
  ("cafe", "dining");
  ("groceries", "grocery");
  ("supermarket", "grocery");
  ("fuel", "gas");
  ("gas", "gas");
  ("drugstore", "drugstores");
  ("pharmacy", "drugstores");
  ("utility", "utilities");
  ("travel", "travel");
  ("flights", "flights");
  ("hotels", "hotels");
  ("transit", "transit");
  ("online_shopping", "online_shopping")].

(** [for t in types: if t in type_map: return type_map[t]] *)
Fixpoint first_type_match (types : list string) : option string :=
  match types with
  | [] => None
  | t :: ts =>
      match table_get type_map t with
      | Some c => Some c
      | None => first_type_match ts
      end
  end.

(** Each argument is [None] for a Python [None]. *)
Definition canonicalize_category (category : option string) (mcc : option string)
    (place_types : option (list string)) : option string :=
  let mcc' := py_strip (match mcc with Some m => m | None => "" end) in
  let types := map py_lower (match place_types with Some l => l | None => [] end) in
  match table_get mcc_map mcc' with
  | Some c => Some c
  | None =>
      match first_type_match types with
      | Some c => Some c
      | None =>
          match category with
          | Some cat =>
              if str_truthy cat then
                match table_get cat_alias (py_strip (py_lower cat)) with
                | Some c => Some c
                | None => Some (py_strip (py_lower cat))
                end
              else None
          | None => None
          end
      end
  end.

(** ** Python exceptions and a small error monad *)

Record exn := mk_exn { exn_type : string; exn_msg : string }.

(** A Python computation that returns a value or raises. *)
Inductive res (A : Type) : Type :=
| Ok (a : A)
| Err (e : exn).
Arguments Ok {A} a.
Arguments Err {A} e.

Definition res_bind {A B} (m : res A) (k : A -> res B) : res B :=
  match m with Ok a => k a | Err e => Err e end.

Notation "'let*' x := m 'in' k" := (res_bind m (fun x => k))
  (at level 200, x name, m at level 100, k at level 200).

Definition ValueError (msg : string) : exn := mk_exn "ValueError" msg.
Definition IndexError (msg : string) : exn := mk_exn "IndexError" msg.

(** ** Multiplier rows and the reward-rules document *)

Open Scope Q_scope.

Record row := mk_row {
  card : string;
  category_multiplier : Q;
  rotating_multiplier : Q;
  base_multiplier : Q;
  effective_multiplier : Q
}.

(** A card's JSON entry: its ["rewards"] object, [None] when the key is
    missing or holds [null]. *)
Record card_entry := mk_card_entry { ce_rewards : option (gmap string Q) }.

(** The rewards.json document: its ["cards"] object, [None] when missing. *)
Record rewards_doc := mk_rewards_doc { rd_cards : option (gmap string card_entry) }.

(** [float(v or d)] where [v] is [rw.get(k, d)]: a zero value is falsy. *)
Definition or_float (v : option Q) (d : Q) : Q :=
  match v with
  | Some q => if Qeq_bool q 0 then d else q
  | None => d
  end.

(** [max(a, b, c)]: the first argument, replaced by each later one that is
    strictly greater. *)
Definition py_max_step (cur y : Q) : Q := if Qle_bool y cur then cur else y.

Definition py_max3 (a b c : Q) : Q := py_max_step (py_max_step a b) c.

Definition str_mem (s : string) (l : list string) : bool :=
  existsb (String.eqb s) l.

Definition travel_subcats : list string := ["flights"; "hotels"; "transit"].

(** [cards_dict = rewards.get("cards", {})] *)
Definition cards_of (rewards : rewards_doc) : gmap string card_entry :=
  match rd_cards rewards with Some d => d | None => ∅ end.

(** [card_entry = cards_dict.get(normalized_card, {})];
    [rw = card_entry.get("rewards", {}) or {}] *)
Definition card_rewards (cards_dict : gmap string card_entry) (normalized_card : string)
    : gmap string Q :=
  match cards_dict !! normalized_card with
  | Some ce => match ce_rewards ce with Some m => m | None => ∅ end
  | None => ∅
  end.

(** [cc = lc(canonical_category) if canonical_category else None] *)
Definition cc_of (canonical_category : option string) : option string :=
  match canonical_category with
  | Some c => if str_truthy c then Some (lc c) else None
  | None => None
  end.

(** The loop body of [build_rows] for one user card. *)
Definition build_row (cards_dict : gmap string card_entry) (cc : option string)
    (rotating_active : list string) (c : string) : row :=
  let normalized_card := normalize_card_name c in
  let rw := card_rewards cards_dict normalized_card in
  let base := or_float (rw !! "everything_else") 1 in
  let cat_mult :=
    match cc with
    | Some k =>
        if str_truthy k then
          let m := or_float (rw !! k) 0 in
          if Qeq_bool m 0 && str_mem k travel_subcats
          then or_float (rw !! "travel") 0 else m
        else 0
    | None => 0
    end in
  let rot_mult :=
    match cc with
    | Some k =>
        if str_truthy k && str_mem k rotating_active
        then or_float (rw !! "rotating") 0 else 0
    | None => 0
    end in
  mk_row normalized_card cat_mult rot_mult base (py_max3 base cat_mult rot_mult).

Definition build_rows (user_cards : list string) (rewards : rewards_doc)
    (canonical_category : option string) (rotating_active : list string) : list row :=
  map (build_row (cards_of rewards) (cc_of canonical_category) rotating_active) user_cards.

(** ** The deterministic selector ([deterministic_best]) *)

Definition tol : Q := 1 # 1000000000.

(** [math.isclose(a, b, rel_tol=1e-9, abs_tol=1e-9)], as in CPython. *)
Definition isclose (a b : Q) : bool :=
  Qeq_bool a b ||
  Qle_bool (Qabs (b - a)) (Qabs (tol * b)) ||
  Qle_bool (Qabs (b - a)) (Qabs (tol * a)) ||
  Qle_bool (Qabs (b - a)) tol.

(** Built-in [max] over an iterable. *)
Definition py_max (l : list Q) : res Q :=
  match l with
  | [] => Err (ValueError "max() arg is an empty sequence")
  | x :: xs => Ok (fold_left py_max_step xs x)
  end.

(** [l[0]] *)
Definition index0 {A} (l : list A) : res A :=
  match l with
  | [] => Err (IndexError "list index out of range")
  | x :: _ => Ok x
  end.

(** [list.sort(key=lambda x: x["card"])]: a stable sort, written as an
    insertion sort (a stable sort's result is unique). *)
Fixpoint insert_by_card (x : row) (l : list row) : list row :=
  match l with
  | [] => [x]
  | y :: ys => if String.ltb (card y) (card x) then y :: insert_by_card x ys
               else x :: y :: ys
  end.

Definition sort_by_card (l : list row) : list row :=
  fold_right insert_by_card [] l.

Definition deterministic_best (rows : list row) : res (option row) :=
  match rows with
  | [] => Ok None
  | _ =>
      let* max_eff := py_max (map effective_multiplier rows) in
      let eff_tied := List.filter (fun r => isclose (effective_multiplier r) max_eff) rows in
      if (length eff_tied =? 1)%nat then let* r := index0 eff_tied in Ok (Some r)
      else
        let* max_base := py_max (map base_multiplier eff_tied) in
        let base_tied := List.filter (fun r => isclose (base_multiplier r) max_base) eff_tied in
        if (length base_tied =? 1)%nat then let* r := index0 base_tied in Ok (Some r)
        else let* r := index0 (sort_by_card base_tied) in Ok (Some r)
  end.

(** [eff_tied] for a given [max_eff]. *)
Definition eff_tied_of (rows : list row) (max_eff : Q) : list row :=
  List.filter (fun r => isclose (effective_multiplier r) max_eff) rows.

Definition is_max (l : list Q) (m : Q) : Prop :=
  (forall x, In x l -> x <= m) /\ (exists x, In x l /\ x == m).

(** The results of two selections name the same card. *)
Definition same_card_result (a b : res (option row)) : Prop :=
  match a, b with
  | Ok (Some r), Ok (Some r') => card r = card r'
  | Ok None, Ok None => True
  | _, _ => False
  end.

(** ** The explanation arbitrator ([analyze_location_and_recommend_card]) *)

(** A JSON value as [json.loads] returns it; an object keeps its members in
    document order. *)
#[warnings="-register-all"] Inductive jval : Type :=
| JNull
| JBool (b : bool)
| JInt (z : Z)
| JFloat (q : Q)
| JStr (s : string)
| JArr (l : list jval)
| JObj (kvs : list (string * jval)).

(** [dict.get(k)] on a parsed object: the last member with key [k]. *)
Definition obj_get (kvs : list (string * jval)) (k : string) : option jval :=
  fold_left (fun acc kv => if String.eqb (fst kv) k then Some (snd kv) else acc) kvs None.

(** Python truthiness of [dict.get(k)]; [None] is Python's [None]. *)
Definition py_truthy (v : option jval) : bool :=
  match v with
  | None | Some JNull => false
  | Some (JBool b) => b
  | Some (JInt z) => negb (Z.eqb z 0)
  | Some (JFloat q) => negb (Qeq_bool q 0)
  | Some (JStr s) => str_truthy s
  | Some (JArr l) => match l with [] => false | _ => true end
  | Some (JObj kvs) => match kvs with [] => false | _ => true end
  end.

Definition py_type_name (v : jval) : string :=
  match v with
  | JNull => "NoneType" | JBool _ => "bool" | JInt _ => "int" | JFloat _ => "float"
  | JStr _ => "str" | JArr _ => "list" | JObj _ => "dict"
  end.

Definition AttributeError (v : jval) : exn :=
  mk_exn "AttributeError" ("'" ++ py_type_name v ++ "' object has no attribute 'get'").

Definition StopIteration : exn := mk_exn "StopIteration" "".

(** The keys of [location_metadata] the function reads ([None]: missing
    or [null]). The merchant name and coordinates only enter the prompt. *)
Record location_metadata := mk_location_metadata {
  lm_category : option string;
  lm_mcc : option string;
  lm_place_types : option (list string);
  lm_user_cards : option (list string);
  lm_user_rotating_active : option (list string)
}.

(** What the chat-completion call does: raise, or return the message
    content ([None] for a [null] content). *)
Inductive collab_reply : Type :=
| CollabRaises (e : exn)
| CollabReturns (content : option string).

(** The returned dict: [explanation] is the collaborator's JSON value when
    it is accepted, a string otherwise. *)
Record decision := mk_decision {
  recommended_card : string;
  explanation : jval
}.

(** [list(location_metadata.get("user_cards") or [])] *)
Definition wallet_of (md : location_metadata) : list string :=
  match lm_user_cards md with Some l => l | None => [] end.

Definition canonical_of (md : location_metadata) : option string :=
  canonicalize_category (lm_category md) (lm_mcc md) (lm_place_types md).

(** [set(lc(c) for c in (location_metadata.get("user_rotating_active") or []))] *)
Definition rotating_of (md : location_metadata) : list string :=
  map lc (match lm_user_rotating_active md with Some l => l | None => [] end).

(** [canonical_category or 'base'] *)
Definition cat_or_base (canonical_category : option string) : string :=
  match canonical_category with
  | Some c => if str_truthy c then c else "base"
  | None => "base"
  end.

(** How the try block ends: a return, or an exception together with the
    bindings of the locals [best] and [canonical_category] at that point
    ([None]: not yet assigned). *)
Inductive body_outcome : Type :=
| Returned (d : decision)
| Raised (e : exn) (best : option (option row)) (canonical_category : option (option string)).

Section Arbitrator.

(** [f"{x}"] of a Python float. *)
Variable float_repr : Q -> string.
(** [json.loads]; [None] when it raises. *)
Variable json_loads : string -> option jval.

Definition wins_text (r : row) (canonical_category : option string) (suffix : string) : string :=
  card r ++ " wins with " ++ float_repr (effective_multiplier r) ++ "x on " ++
  cat_or_base canonical_category ++ suffix.

(** The outer [try] block. *)
Definition analyze_body (loaded : res rewards_doc) (md : location_metadata)
    (reply : collab_reply) : body_outcome :=
  match loaded with
  | Err e => Raised e None None
  | Ok rewards =>
  let user_cards := wallet_of md in
  match user_cards with
  | [] => Raised (ValueError "No user_cards provided") None None
  | _ =>
  let canonical_category := canonical_of md in
  let rotating_active := rotating_of md in
  let rows := build_rows user_cards rewards canonical_category rotating_active in
  match deterministic_best rows with
  | Err e => Raised e None (Some canonical_category)
  | Ok best =>
  match reply with
  | CollabRaises e => Raised e (Some best) (Some canonical_category)
  | CollabReturns content =>
  let raw := py_strip (match content with Some c => c | None => "" end) in
  let gpt := match json_loads raw with Some v => v | None => JObj [] end in
  match gpt with
  | JObj kvs =>
    let provided_names := map card rows in
    let chosen_name := obj_get kvs "recommended_card" in
    let chosen_in := match chosen_name with
                     | Some (JStr n) => str_mem n provided_names
                     | _ => false
                     end in
    if negb chosen_in || match best with Some _ => false | None => true end then
      Returned
        (mk_decision
           (match best with Some b => card b | None => "No specific recommendation" end)
           (JStr (match best with
                  | Some b => wins_text b canonical_category " (deterministic fallback)."
                  | None => "Unavailable."
                  end)))
    else
      let n := match chosen_name with Some (JStr n) => n | _ => "" end in
      match find (fun r => String.eqb (card r) n) rows with
      | None => Raised StopIteration (Some best) (Some canonical_category)
      | Some chosen_row =>
        match deterministic_best rows with
        | Err e => Raised e (Some best) (Some canonical_category)
        | Ok optimal =>
          match optimal with
          | Some o =>
            if negb (String.eqb (card chosen_row) (card o)) then
              Returned (mk_decision (card o)
                (JStr (wins_text o canonical_category " (corrected to argmax).")))
            else
              Returned (mk_decision (card chosen_row)
                (match obj_get kvs "explanation" with
                 | Some v => if py_truthy (Some v) then v
                             else JStr (wins_text chosen_row canonical_category ".")
                 | None => JStr (wins_text chosen_row canonical_category ".")
                 end))
          | None =>
              Returned (mk_decision (card chosen_row)
                (match obj_get kvs "explanation" with
                 | Some v => if py_truthy (Some v) then v
                             else JStr (wins_text chosen_row canonical_category ".")
                 | None => JStr (wins_text chosen_row canonical_category ".")
                 end))
          end
        end
      end
  | other => Raised (AttributeError other) (Some best) (Some canonical_category)
  end
  end
  end
  end
  end.

Definition no_recommendation (e : exn) : decision :=
  mk_decision "No specific recommendation"
    (JStr ("Unable to compute optimal card: " ++ exn_msg e)).

(** The [except Exception as e] handler: a bound, truthy [best] gives the
    absolute fallback; an unbound local raises [NameError], which the inner
    handler swallows. *)
Definition analyze_handler (e : exn) (best : option (option row))
    (canonical_category : option (option string)) : decision :=
  match best with
  | Some (Some b) =>
      match canonical_category with
      | Some c => mk_decision (card b) (JStr (wins_text b c " (fallback)."))
      | None => no_recommendation e
      end
  | _ => no_recommendation e
  end.

Definition analyze_location_and_recommend_card (loaded : res rewards_doc)
    (md : location_metadata) (reply : collab_reply) : decision :=
  match analyze_body loaded md reply with
  | Returned d => d
  | Raised e best c => analyze_handler e best c
  end.

End Arbitrator.

(** ** The Google Places client ([PlacesClient], places_client.py) *)

(** A place of the Nearby Search results, with the keys the code reads
    ([None]: the key is missing). Google sends the name as a string and
    the types as a list of strings. *)
Record place := mk_place { pl_name : option string; pl_types : option (list string) }.

(** [result.get('types', [])] *)
Definition types_of (p : place) : list string :=
  match pl_types p with Some l => l | None => [] end.

(** [x or d] for an optional string. *)
Definition str_or (o : option string) (d : string) : string :=
  match o with Some s => if str_truthy s then s else d | None => d end.

Module PlacesClient.

Definition mcc_mapping : list (string * string) := [
  ("restaurant", "5812"); ("cafe", "5812"); ("coffee_shop", "5812");
  ("bakery", "5812"); ("food", "5812"); ("meal_takeaway", "5812");
  ("meal_delivery", "5812");
  ("grocery_or_supermarket", "5411"); ("supermarket", "5411");
  ("convenience_store", "5411"); ("department_store", "5311");
  ("clothing_store", "5651"); ("shoe_store", "5661");
  ("jewelry_store", "5944"); ("electronics_store", "5732");
  ("gas_station", "5541"); ("car_rental", "7512"); ("car_dealer", "5511");
  ("lodging", "7011"); ("hotel", "7011"); ("travel_agency", "4722");
  ("movie_theater", "7832"); ("amusement_park", "7996"); ("gym", "7997");
  ("spa", "7298");
  ("bank", "6011"); ("atm", "6011"); ("pharmacy", "5912");
  ("hospital", "8062"); ("dentist", "8021"); ("doctor", "8011");
  ("veterinary_care", "0742");
  ("store", "5999"); ("establishment", "5999"); ("point_of_interest", "5999")].

Definition category_mapping : list (string * string) := [
  ("restaurant", "Dining"); ("cafe", "Dining"); ("coffee_shop", "Dining");
  ("bakery", "Dining"); ("food", "Dining"); ("meal_takeaway", "Dining");
  ("meal_delivery", "Dining");
  ("grocery_or_supermarket", "Grocery"); ("supermarket", "Grocery");
  ("convenience_store", "Grocery"); ("department_store", "Department Store");
  ("clothing_store", "Retail"); ("shoe_store", "Retail");
  ("jewelry_store", "Retail"); ("electronics_store", "Retail");
  ("gas_station", "Gas"); ("car_rental", "Travel"); ("car_dealer", "Automotive");
  ("lodging", "Travel"); ("hotel", "Travel"); ("travel_agency", "Travel");
  ("movie_theater", "Entertainment"); ("amusement_park", "Entertainment");
  ("gym", "Fitness"); ("spa", "Wellness");
  ("bank", "Financial"); ("atm", "Financial"); ("pharmacy", "Healthcare");
  ("hospital", "Healthcare"); ("dentist", "Healthcare"); ("doctor", "Healthcare");
  ("veterinary_care", "Pet Care");
  ("store", "Retail"); ("establishment", "General"); ("point_of_interest", "General")].

(** The loop over [types]: the first type with an MCC decides. *)
Fixpoint map_types_to_mcc_category (types : list string) : option string * option string :=
  match types with
  | [] => (None, None)
  | place_type :: ts =>
      match table_get mcc_mapping place_type with
      | Some mcc_code =>
          (Some mcc_code,
           Some (match table_get category_mapping place_type with
                 | Some category => category
                 | None => "General"
                 end))
      | None => map_types_to_mcc_category ts
      end
  end.

Definition _get_mcc_from_types (types : list string) : option string :=
  fst (map_types_to_mcc_category types).

Definition _get_category_from_types (types : list string) : string :=
  str_or (snd (map_types_to_mcc_category types)) "General".

(** The set literals, duplicates included as in the source. *)
Definition business_types : gset string := list_to_set [
  "store"; "restaurant"; "food"; "shopping_mall"; "supermarket"; "grocery_or_supermarket";
  "gas_station"; "pharmacy"; "bank"; "atm"; "hospital"; "clothing_store"; "electronics_store";
  "furniture_store"; "home_goods_store"; "jewelry_store"; "shoe_store"; "book_store";
  "bicycle_store"; "car_dealer"; "car_rental"; "car_repair"; "car_wash"; "laundry";
  "beauty_salon"; "hair_care"; "spa"; "gym"; "movie_theater"; "night_club"; "bar";
  "cafe"; "bakery"; "meal_takeaway"; "meal_delivery"; "liquor_store"; "convenience_store";
  "department_store"; "hardware_store"; "pet_store"; "travel_agency"; "real_estate_agency";
  "insurance_agency"; "accounting"; "lawyer"; "dentist"; "doctor"; "veterinary_care";
  "post_office"; "library"; "museum"; "art_gallery"; "tourist_attraction"; "amusement_park";
  "zoo"; "aquarium"; "stadium"; "university"; "school"; "church"; "mosque"; "synagogue";
  "hindu_temple"; "cemetery"; "funeral_home"; "embassy"; "city_hall"; "courthouse";
  "police"; "fire_station"; "hospital"; "pharmacy"; "dentist"; "doctor"; "veterinary_care"].

Definition exclude_types : gset string := list_to_set [
  "locality"; "political"; "country"; "administrative_area_level_1";
  "administrative_area_level_2"; "administrative_area_level_3";
  "administrative_area_level_4"; "administrative_area_level_5";
  "colloquial_area"; "sublocality"; "sublocality_level_1"; "sublocality_level_2";
  "sublocality_level_3"; "sublocality_level_4"; "sublocality_level_5";
  "neighborhood"; "premise"; "subpremise"; "postal_code"; "route"; "street_address";
  "intersection"; "street_number"; "airport"; "bus_station"; "subway_station";
  "train_station"; "transit_station"; "parking"; "park"].

(** [a.intersection(b)] is truthy. *)
Definition meets (a b : gset string) : bool := bool_decide (a ∩ b ≠ ∅).

(** Whether the loop of [_filter_business_results] appends [result]. *)
Definition keep_result (result : place) : bool :=
  let place_types : gset string := list_to_set (types_of result) in
  if meets place_types exclude_types then false
  else if meets place_types business_types then true
  else if negb (meets place_types exclude_types) then
    let name := py_strip (match pl_name result with Some n => n | None => "" end) in
    str_truthy name && (2 <? String.length name)%nat &&
    negb (str_mem (py_lower name) ["san francisco"; "california"; "usa"])
  else false.

Definition business_score (result : place) : nat :=
  size (list_to_set (types_of result) ∩ business_types : gset string).

(** [list.sort(key=business_score, reverse=True)] is stable: places of
    equal score keep their order. Written as an insertion sort. *)
Fixpoint insert_by_score (x : place) (l : list place) : list place :=
  match l with
  | [] => [x]
  | y :: ys => if (business_score y <=? business_score x)%nat then x :: l
               else y :: insert_by_score x ys
  end.

Definition sort_by_score_desc (l : list place) : list place :=
  fold_right insert_by_score [] l.

Definition _filter_business_results (results : list place) : list place :=
  sort_by_score_desc (List.filter keep_result results).

(** What one attempt of the retry loop of [nearby] meets: an
    [httpx.TimeoutException], an [httpx.HTTPStatusError], another
    exception (its [str]), or a decoded response with its "status",
    "results" and "error_message" ([None]: key missing). *)
Inductive places_attempt : Type :=
| AttTimeout
| AttHTTPStatus (status_code : Z)
| AttError (msg : string)
| AttData (status : option string) (results : option (list place)) (error_message : option string).

(** [data.get("status") == s]: a missing status is [None], equal to no string. *)
Definition status_is (status : option string) (s : string) : bool :=
  match status with Some x => String.eqb x s | None => false end.

(** [f"{data.get('status')}"] *)
Definition status_str (status : option string) : string :=
  match status with Some s => s | None => "None" end.

(** The [try] body of one attempt. *)
Definition nearby_try (a : places_attempt) : res (list place) :=
  match a with
  | AttTimeout => Err (mk_exn "TimeoutException" "")
  | AttHTTPStatus code => Err (mk_exn "HTTPStatusError" (pretty code))
  | AttError msg => Err (mk_exn "Exception" msg)
  | AttData status results error_message =>
      if status_is status "OK" then
        Ok (_filter_business_results (match results with Some l => l | None => [] end))
      else if status_is status "ZERO_RESULTS" then
        Ok []
      else
        Err (mk_exn "Exception" ("Google Places API error: " ++ status_str status ++ " - " ++
               match error_message with Some m => m | None => "Unknown API error" end))
  end.

(** The exception each [except] clause raises on the last attempt. *)
Definition nearby_reraise (retries : nat) (a : places_attempt) (e : exn) : exn :=
  match a with
  | AttTimeout => mk_exn "Exception" ("Google Places API timeout after " ++ pretty retries ++ " attempts")
  | AttHTTPStatus code => mk_exn "Exception" ("Google Places API HTTP error: " ++ pretty code)
  | _ => mk_exn "Exception" ("Google Places API error: " ++ exn_msg e)
  end.

(** [for attempt in range(self.retries)]; [outcome attempt] is what the
    attempt meets. The back-off sleeps do not change the result. *)
Fixpoint nearby_loop (retries : nat) (attempts : list nat) (outcome : nat -> places_attempt)
    : res (list place) :=
  match attempts with
  | [] => Ok []
  | attempt :: rest =>
      match nearby_try (outcome attempt) with
      | Ok l => Ok l
      | Err e =>
          if Nat.eqb attempt (retries - 1) then Err (nearby_reraise retries (outcome attempt) e)
          else nearby_loop retries rest outcome
      end
  end.

Definition nearby (retries : nat) (outcome : nat -> places_attempt) : res (list place) :=
  nearby_loop retries (seq 0 retries) outcome.

(** The dict [resolve_merchant] returns. *)
Record merchant_info := mk_merchant_info {
  mi_merchant : string;
  mi_mcc : option string;
  mi_category : string;
  mi_confidence : Q
}.

(** [resolve_merchant], given the outcome of [find_nearby_places], which
    returns [nearby]'s. *)
Definition resolve_merchant (places : res (list place)) : res merchant_info :=
  match places with
  | Err e => Err e
  | Ok [] => Err (mk_exn "Exception" "No places found at coordinates")
  | Ok (best_place :: _) =>
      let '(mcc_code, category) := map_types_to_mcc_category (types_of best_place) in
      Ok (mk_merchant_info
            (match pl_name best_place with Some n => n | None => "Unknown" end)
            mcc_code (str_or category "General") (17 # 20))
  end.

End PlacesClient.

(** ** The routes that call them (routes/resolve.py, routes/events.py) *)

(** A route returns its response model or raises an [HTTPException]. *)
Inductive http_result (A : Type) : Type :=
| HTTPOk (a : A)
| HTTPError (status_code : Z) (detail : jval).
Arguments HTTPOk {A} a.
Arguments HTTPError {A} status_code detail.

Definition error_detail (code message : string) (retryable : bool) : jval :=
  JObj [("error", JObj [("code", JStr code); ("message", JStr message);
                        ("retryable", JBool retryable)])].

Definition no_merchants_found : jval :=
  error_detail "NO_MERCHANTS_FOUND" "No merchants found at the specified location" false.

(** [0.8 if mcc else settings.min_confidence] *)
Definition confidence_of (mcc : option string) (min_confidence : Q) : Q :=
  if match mcc with Some m => str_truthy m | None => false end then 4 # 5 else min_confidence.

(** [value.get(k)] on a JSON value that may be an object. *)
Definition jget (v : jval) (k : string) : option jval :=
  match v with JObj kvs => obj_get kvs k | _ => None end.

(** The dict [analyze_location_and_recommend_card] returns. *)
Definition decision_dict (d : decision) : jval :=
  JObj [("recommended_card", JStr (recommended_card d)); ("explanation", explanation d)].

(** The [location_metadata] dict [mock_visit] builds: it has no
    "user_rotating_active" key; the merchant name and coordinates only
    enter the prompt. *)
Definition visit_metadata (category mcc : option string) (place_types : list string)
    (user_cards : option (list string)) : location_metadata :=
  mk_location_metadata category mcc (Some place_types)
    (Some (match user_cards with Some l => l | None => [] end)) None.

Module Routes.

Record resolve_response := mk_resolve_response {
  rr_merchant : string;
  rr_mcc : option string;
  rr_category : option string;
  rr_confidence : Q
}.

(** [resolve_merchant] of routes/resolve.py, given what [nearby] returns
    or raises. *)
Definition resolve_merchant (min_confidence : Q) (nearby_places : res (list place))
    : http_result resolve_response :=
  match nearby_places with
  | Err e => HTTPError 500 (JStr (exn_msg e))
  | Ok [] => HTTPError 404 no_merchants_found
  | Ok (top_place :: _) =>
      let place_types := types_of top_place in
      let '(mcc, category) := PlacesClient.map_types_to_mcc_category place_types in
      let confidence := confidence_of mcc min_confidence in
      HTTPOk (mk_resolve_response
                (match pl_name top_place with Some n => n | None => "Unknown Merchant" end)
                mcc category confidence)
  end.

(** [MockVisitResponse] of routes/events.py, as built from validated
    fields: [merchant], [category], [mcc] and [request_id] are strings (or
    None) by construction, [top_card] and [reason] are [Optional[str]]. *)
Record mock_visit_response := mk_mock_visit_response {
  mv_merchant : string;
  mv_category : option string;
  mv_mcc : option string;
  mv_confidence : Q;
  mv_top_card : option string;
  mv_reason : option string;
  mv_request_id : string
}.

(** Validation of an [Optional[str]] field: a string or [None] is
    accepted, any other value is a validation error. *)
Definition validate_optional_str (v : jval) : option (option string) :=
  match v with
  | JStr s => Some (Some s)
  | JNull => Some None
  | _ => None
  end.

(** [MockVisitResponse(...)] for the two fields whose values may come from
    the collaborator: it raises a [ValidationError] listing the fields that
    fail. [validation_error_str] is [str] of that error, given the failing
    (field, value) pairs in field order. *)
Definition make_mock_visit_response (validation_error_str : list (string * jval) -> string)
    (merchant : string) (category mcc : option string) (confidence : Q)
    (top_card reason : jval) (request_id : string) : res mock_visit_response :=
  match validate_optional_str top_card, validate_optional_str reason with
  | Some tc, Some rs =>
      Ok (mk_mock_visit_response merchant category mcc confidence tc rs request_id)
  | _, _ =>
      Err (mk_exn "ValidationError"
             (validation_error_str
                (List.filter (fun fv => match validate_optional_str (snd fv) with
                                        | Some _ => false
                                        | None => true
                                        end)
                   [("top_card", top_card); ("reason", reason)])))
  end.

(** The 500 answer of [mock_visit]'s last [except Exception as e]. *)
Definition visit_simulation_failed (msg : string) : jval :=
  error_detail "VISIT_SIMULATION_FAILED" ("Failed to simulate visit: " ++ msg) true.

(** [mock_visit] of routes/events.py. [client] is the outcome of
    [OpenAIClient()]; [loaded], [reply], [float_repr] and [json_loads] are
    the inputs of [analyze_location_and_recommend_card];
    [request_id] is the generated UUID. A place's name, when present, is a
    string, as in the Places API results. *)
Definition mock_visit (float_repr : Q -> string) (json_loads : string -> option jval)
    (validation_error_str : list (string * jval) -> string)
    (min_confidence : Q) (user_cards : option (list string))
    (nearby_places : res (list place)) (client : res unit)
    (loaded : res rewards_doc) (reply : collab_reply) (request_id : string)
    : http_result mock_visit_response :=
  match nearby_places with
  | Err e => HTTPError 500 (visit_simulation_failed (exn_msg e))
  | Ok [] => HTTPError 404 no_merchants_found
  | Ok (top_place :: _) =>
      let merchant_name :=
        match pl_name top_place with Some n => n | None => "Unknown Merchant" end in
      let place_types := types_of top_place in
      let '(mcc, category) := PlacesClient.map_types_to_mcc_category place_types in
      let confidence := confidence_of mcc min_confidence in
      let '(top_card, reason) :=
        match client with
        | Err _ =>
            (JStr "No specific recommendation",
             JStr "Unable to analyze location for optimal card recommendation")
        | Ok _ =>
            let location_metadata := visit_metadata category mcc place_types user_cards in
            let gpt_response := decision_dict
              (analyze_location_and_recommend_card float_repr json_loads loaded
                 location_metadata reply) in
            if py_truthy (Some gpt_response) &&
               match jget gpt_response "recommended_card" with Some _ => true | None => false end
            then
              (match jget gpt_response "recommended_card" with Some v => v | None => JNull end,
               match jget gpt_response "explanation" with
               | Some v => v
               | None => JStr ("Optimal card for " ++ merchant_name)
               end)
            else
              (JStr "No specific recommendation",
               JStr ("Unable to determine optimal card for " ++ merchant_name))
        end in
      match make_mock_visit_response validation_error_str merchant_name category mcc
              confidence top_card reason request_id with
      | Ok resp => HTTPOk resp
      | Err e => HTTPError 500 (visit_simulation_failed (exn_msg e))
      end
  end.

End Routes.

(** ** Concrete inputs *)

(** Two cards built by [build_rows] for the category "dining": "A" earns
    1x everywhere, "B" earns 0.5x base and 1.0000000005x on dining. *)
Definition near_tie_rewards : rewards_doc :=
  mk_rewards_doc (Some (<["B" := mk_card_entry (Some
      (<["dining" := 2000000001 # 2000000000]> {["everything_else" := 1 # 2]}))]>
    {["A" := mk_card_entry (Some {["everything_else" := 1]})]})).

Definition near_tie_rows : list row :=
  build_rows ["A"; "B"] near_tie_rewards (Some "dining") [].

(** The end-to-end example of the spec: MCC 5812 and a wallet holding
    "Amex Gold" (4x dining) and "Citi Custom Cash" (5x dining). *)
Definition example_rewards : rewards_doc :=
  mk_rewards_doc (Some (<["Citi Custom Cash" := mk_card_entry (Some
      (<["dining" := 5]> {["everything_else" := 1]}))]>
    {["Amex Gold" := mk_card_entry (Some
      (<["dining" := 4]> {["everything_else" := 1]}))]})).

Definition example_md : location_metadata :=
  mk_location_metadata None (Some "5812") None (Some ["Amex Gold"; "Citi Custom Cash"]) None.

(** [repr] of the floats of the example. *)
Definition example_float_repr (q : Q) : string :=
  if Qeq_bool q 5 then "5.0" else if Qeq_bool q 4 then "4.0" else "1.0".

(** A parser that reads one fixed reply naming "Amex Gold". *)
Definition example_json_loads (s : string) : option jval :=
  if String.eqb s "recommended_card: Amex Gold"
  then Some (JObj [("recommended_card", JStr "Amex Gold")])
  else None.

Definition name_tie_rows : list row := [mk_row "Beta" 2 0 1 2; mk_row "Alpha" 2 0 1 2].

(** Dining is an active rotating category; Citi Custom Cash also defines a
    5x "rotating" rate. *)
Definition rotating_rewards : rewards_doc :=
  mk_rewards_doc (Some {["Citi Custom Cash" := mk_card_entry (Some
      (<["rotating" := 5]> {["everything_else" := 1]}))]}).

Definition travel_rewards : rewards_doc :=
  mk_rewards_doc (Some {["Capital One Venture" := mk_card_entry (Some
      (<["travel" := 2]> {["everything_else" := 1]}))]}).

(** Places for the further properties: a cafe, a city (a locality), a
    store without a name, and a campground (no type with an MCC). *)
Definition cafe_place : place :=
  mk_place (Some "Blue Bottle Coffee") (Some ["cafe"; "food"; "point_of_interest"; "establishment"]).

Definition city_place : place :=
  mk_place (Some "San Francisco") (Some ["locality"; "political"]).

Definition unnamed_store : place := mk_place None (Some ["store"]).

Definition campground_place : place := mk_place (Some "Pine Flats") (Some ["campground"]).

(** A Nearby Search that times out once, then answers "OK". *)
Definition retry_outcome (attempt : nat) : PlacesClient.places_attempt :=
  match attempt with
  | O => PlacesClient.AttTimeout
  | S _ => PlacesClient.AttData (Some "OK") (Some [city_place; cafe_place]) None
  end.

(** A parser that reads one fixed reply naming "Citi Custom Cash" with an
    explanation. *)
Definition accept_json_loads (s : string) : option jval :=
  if String.eqb s "recommended_card: Citi Custom Cash"
  then Some (JObj [("recommended_card", JStr "Citi Custom Cash");
                   ("explanation", JStr "5x on dining")])
  else None.

(** A parser that reads one fixed reply naming "Citi Custom Cash" with a
    number as its explanation. *)
Definition int_explanation_json_loads (s : string) : option jval :=
  if String.eqb s "recommended_card: Citi Custom Cash; explanation: 5"
  then Some (JObj [("recommended_card", JStr "Citi Custom Cash"); ("explanation", JInt 5)])
  else None.

(** A rendering of a validation error: the names of the failing fields. *)
Definition field_names_error (fields : list (string * jval)) : string :=
  String.concat ", " (map fst fields).

(** A card whose "everything_else" rate is 0. *)
Definition zero_base_rewards : rewards_doc :=
  mk_rewards_doc (Some {["Debit" := mk_card_entry (Some {["everything_else" := 0]})]}).

(** The order [_filter_business_results] sorts by: higher business score first. *)
Definition score_ge (a b : place) : Prop :=
  (PlacesClient.business_score b <= PlacesClient.business_score a)%nat.

(** ** Sample evaluations *)

Example canon_5812_gas :
  canonicalize_category (Some "gas") (Some "5812") None = Some "dining".
Proof. reflexivity. Qed.

Example normalize_gold :
  normalize_card_name "  AMEX Gold Card " = "Amex Gold".
Proof. reflexivity. Qed.

Example best_by_base :
  deterministic_best [mk_row "A" 2 0 1 2; mk_row "B" 2 0 (3#2) 2] =
  Ok (Some (mk_row "B" 2 0 (3#2) 2)).
Proof. reflexivity. Qed.

Example best_by_name :
  deterministic_best [mk_row "Beta" 2 0 1 2; mk_row "Alpha" 2 0 1 2] =
  Ok (Some (mk_row "Alpha" 2 0 1 2)).
Proof. reflexivity. Qed.

(** ** Proofs: name normalizer and canonicalizer *)

Lemma table_get_In {V} (t : list (string * V)) k v :
  table_get t k = Some v -> In (k, v) t.
Proof.
  induction t as [|[k' v'] t IH]; simpl; [discriminate|].
  destruct (String.eqb_spec k k') as [->|_]; [intros [= ->]; auto|auto].
Qed.

Lemma card_mappings_values_fixed :
  Forall (fun kv => normalize_card_name (snd kv) = snd kv) card_mappings.
Proof. repeat constructor. Qed.

Lemma normalize_card_name_mapped x v :
  table_get card_mappings (py_strip (py_lower x)) = Some v ->
  normalize_card_name v = v.
Proof.
  intros H. apply table_get_In in H.
  pose proof card_mappings_values_fixed as HF.
  rewrite List.Forall_forall in HF. exact (HF _ H).
Qed.

Lemma first_type_match_split types t c pre post :
  types = (pre ++ t :: post)%list ->
  Forall (fun u => table_get type_map u = None) pre ->
  table_get type_map t = Some c ->
  first_type_match types = Some c.
Proof.
  intros -> Hpre Ht. induction Hpre as [|u pre Hu _ IH]; cbn [first_type_match app].
  - rewrite Ht. reflexivity.
  - rewrite Hu. exact IH.
Qed.

Lemma first_type_match_none types :
  Forall (fun u => table_get type_map u = None) types ->
  first_type_match types = None.
Proof.
  induction 1 as [|u l Hu _ IH]; cbn [first_type_match]; [reflexivity|].
  rewrite Hu. exact IH.
Qed.

(** C9: [normalize_card_name] is idempotent on every string, and a name
    whose lowercased, stripped form has no alias is returned unchanged. *)
Theorem normalize_card_name_idempotent (x : string) :
  normalize_card_name (normalize_card_name x) = normalize_card_name x /\
  (table_get card_mappings (py_strip (py_lower x)) = None ->
   normalize_card_name x = x).
Proof.
  split.
  - unfold normalize_card_name at 2 3.
    destruct (negb (str_truthy x)) eqn:Hx.
    + unfold normalize_card_name. rewrite Hx. reflexivity.
    + destruct (table_get card_mappings (py_strip (py_lower x))) as [v|] eqn:Hv.
      * exact (normalize_card_name_mapped x v Hv).
      * unfold normalize_card_name. rewrite Hx, Hv. reflexivity.
  - intros H. unfold normalize_card_name.
    destruct (negb (str_truthy x)); [reflexivity|]. rewrite H. reflexivity.
Qed.

(** C7: canonicalization resolves its signals in a fixed order, first
    match winning: a recognised MCC, then the first recognised place tag,
    then the lowercased/stripped free-text category through the alias
    table (itself when unaliased), and [None] otherwise; MCC "5812" with
    free text "gas" gives "dining". *)
Theorem canonicalize_category_precedence :
  (forall category mcc place_types c,
     table_get mcc_map (py_strip (match mcc with Some m => m | None => "" end)) = Some c ->
     canonicalize_category category mcc place_types = Some c) /\
  (forall category mcc place_types pre t post c,
     table_get mcc_map (py_strip (match mcc with Some m => m | None => "" end)) = None ->
     map py_lower (match place_types with Some l => l | None => [] end) = (pre ++ t :: post)%list ->
     Forall (fun u => table_get type_map u = None) pre ->
     table_get type_map t = Some c ->
     canonicalize_category category mcc place_types = Some c) /\
  (forall cat mcc place_types,
     table_get mcc_map (py_strip (match mcc with Some m => m | None => "" end)) = None ->
     Forall (fun u => table_get type_map u = None)
       (map py_lower (match place_types with Some l => l | None => [] end)) ->
     cat <> "" ->
     canonicalize_category (Some cat) mcc place_types =
       Some (match table_get cat_alias (lc cat) with
             | Some c => c
             | None => lc cat
             end)) /\
  (forall category mcc place_types,
     table_get mcc_map (py_strip (match mcc with Some m => m | None => "" end)) = None ->
     Forall (fun u => table_get type_map u = None)
       (map py_lower (match place_types with Some l => l | None => [] end)) ->
     (category = None \/ category = Some "") ->
     canonicalize_category category mcc place_types = None) /\
  canonicalize_category (Some "gas") (Some "5812") None = Some "dining".
Proof.
  unfold canonicalize_category. repeat split.
  - intros category mcc place_types c H. rewrite H. reflexivity.
  - intros category mcc place_types pre t post c Hm Ht Hpre Hc.
    rewrite Hm, (first_type_match_split _ t c pre post Ht Hpre Hc). reflexivity.
  - intros cat mcc place_types Hm Ht Hne.
    rewrite Hm, (first_type_match_none _ Ht).
    destruct cat as [|a s]; [congruence|]. cbn [str_truthy]. unfold lc.
    destruct (table_get cat_alias (py_strip (py_lower (String a s)))); reflexivity.
  - intros category mcc place_types Hm Ht [-> | ->];
      rewrite Hm, (first_type_match_none _ Ht); reflexivity.
Qed.

(** ** Proofs: the multiplier table *)

Lemma py_max_step_ge_cur cur y : cur <= py_max_step cur y.
Proof.
  unfold py_max_step. destruct (Qle_bool y cur) eqn:H; [apply Qle_refl|].
  apply Qlt_le_weak, Qnot_le_lt. intros Hle. apply Qle_bool_iff in Hle. congruence.
Qed.

Lemma build_rows_nth user_cards rewards canonical_category rotating_active i r :
  nth_error (build_rows user_cards rewards canonical_category rotating_active) i = Some r ->
  exists x, nth_error user_cards i = Some x /\
    r = build_row (cards_of rewards) (cc_of canonical_category) rotating_active x.
Proof.
  unfold build_rows. rewrite nth_error_map.
  destruct (nth_error user_cards i) as [x|]; simpl; [|discriminate].
  intros [= <-]. eauto.
Qed.

(** C5: every row built satisfies [effective_multiplier >= base_multiplier],
    and its [rotating_multiplier] is 0 when the lowercased canonical
    category is not among the active rotating categories or is [None],
    whatever "rotating" rate the card's profile defines. *)
Theorem build_rows_row_invariant (user_cards : list string) (rewards : rewards_doc)
    (canonical_category : option string) (rotating_active : list string) (r : row) :
  In r (build_rows user_cards rewards canonical_category rotating_active) ->
  base_multiplier r <= effective_multiplier r /\
  (canonical_category = None -> rotating_multiplier r = 0) /\
  (forall c, canonical_category = Some c -> str_mem (lc c) rotating_active = false ->
     rotating_multiplier r = 0).
Proof.
  unfold build_rows. intros Hin. apply in_map_iff in Hin as [x [<- _]].
  unfold build_row, py_max3; cbn [base_multiplier effective_multiplier rotating_multiplier].
  split; [|split].
  - eapply Qle_trans; apply py_max_step_ge_cur.
  - intros ->. reflexivity.
  - intros c -> Hc. unfold cc_of. destruct (str_truthy c); [|reflexivity].
    rewrite Hc, andb_false_r. reflexivity.
Qed.

(** C8: the category multiplier of the row built for the [i]-th card:
    0 when the canonical category is [None]; for flights, hotels and
    transit with no entry for that token in the card's profile, the
    profile's "travel" entry (0 when absent); for any other token with no
    entry, 0. *)
Theorem build_rows_category_multiplier (user_cards : list string) (rewards : rewards_doc)
    (canonical_category : option string) (rotating_active : list string)
    (i : nat) (x : string) (r : row) :
  nth_error user_cards i = Some x ->
  nth_error (build_rows user_cards rewards canonical_category rotating_active) i = Some r ->
  let rw := card_rewards (cards_of rewards) (normalize_card_name x) in
  (canonical_category = None -> category_multiplier r = 0) /\
  (forall c, canonical_category = Some c -> In c travel_subcats -> rw !! c = None ->
     category_multiplier r = or_float (rw !! "travel") 0) /\
  (forall c, canonical_category = Some c -> str_mem (lc c) travel_subcats = false ->
     rw !! (lc c) = None -> category_multiplier r = 0).
Proof.
  intros Hx Hr. apply build_rows_nth in Hr as [x' [Hx' ->]].
  rewrite Hx in Hx'. injection Hx' as <-.
  cbv zeta. unfold build_row; cbn [category_multiplier].
  split; [|split].
  - intros ->. reflexivity.
  - intros c -> Hc Hnone.
    assert (Hl : lc c = c) by (destruct Hc as [<-|[<-|[<-|[]]]]; reflexivity).
    assert (Ht : str_truthy c = true) by (destruct Hc as [<-|[<-|[<-|[]]]]; reflexivity).
    assert (Hm : str_mem c travel_subcats = true)
      by (destruct Hc as [<-|[<-|[<-|[]]]]; reflexivity).
    unfold cc_of. rewrite Ht, Hl. cbv zeta. rewrite Ht, Hnone, Hm. reflexivity.
  - intros c -> Hc Hnone. unfold cc_of. destruct (str_truthy c); [|reflexivity].
    cbv zeta. rewrite Hnone, Hc. cbn. destruct (str_truthy (lc c)); reflexivity.
Qed.

(** ** Proofs: lexicographic order on card names *)


Lemma ascii_compare_refl (a : ascii) : Ascii.compare a a = Eq.
Proof. unfold Ascii.compare. apply N.compare_refl. Qed.

Lemma ascii_compare_lt_trans (a b c : ascii) :
  Ascii.compare a b = Lt -> Ascii.compare b c = Lt -> Ascii.compare a c = Lt.
Proof. unfold Ascii.compare. rewrite !N.compare_lt_iff. lia. Qed.

Lemma string_compare_refl (s : string) : String.compare s s = Eq.
Proof. induction s as [|a s IH]; simpl; [reflexivity|]. rewrite ascii_compare_refl. exact IH. Qed.

Lemma string_compare_lt_trans (s1 s2 s3 : string) :
  String.compare s1 s2 = Lt -> String.compare s2 s3 = Lt -> String.compare s1 s3 = Lt.
Proof.
  revert s2 s3. induction s1 as [|a s1 IH]; intros [|b s2] [|c s3]; simpl;
    try discriminate; try reflexivity.
  destruct (Ascii.compare a b) eqn:E1; try discriminate;
  destruct (Ascii.compare b c) eqn:E2; try discriminate.
  - apply Ascii.compare_eq_iff in E1, E2. subst. rewrite ascii_compare_refl. apply IH.
  - apply Ascii.compare_eq_iff in E1. subst. rewrite E2. reflexivity.
  - apply Ascii.compare_eq_iff in E2. subst. rewrite E1. reflexivity.
  - rewrite (ascii_compare_lt_trans _ _ _ E1 E2). reflexivity.
Qed.

Lemma string_leb_refl (s : string) : String.leb s s = true.
Proof. unfold String.leb. rewrite string_compare_refl. reflexivity. Qed.

Lemma string_leb_trans (s1 s2 s3 : string) :
  String.leb s1 s2 = true -> String.leb s2 s3 = true -> String.leb s1 s3 = true.
Proof.
  unfold String.leb.
  destruct (String.compare s1 s2) eqn:E1; try discriminate;
  destruct (String.compare s2 s3) eqn:E2; try discriminate; intros _ _.
  - apply String.compare_eq_iff in E1, E2. subst. rewrite string_compare_refl. reflexivity.
  - apply String.compare_eq_iff in E1. subst. rewrite E2. reflexivity.
  - apply String.compare_eq_iff in E2. subst. rewrite E1. reflexivity.
  - rewrite (string_compare_lt_trans _ _ _ E1 E2). reflexivity.
Qed.

Lemma string_ltb_leb (s1 s2 : string) : String.ltb s1 s2 = true -> String.leb s1 s2 = true.
Proof. unfold String.ltb, String.leb. destruct (String.compare s1 s2); congruence. Qed.

Lemma string_not_ltb_leb (s1 s2 : string) : String.ltb s1 s2 = false -> String.leb s2 s1 = true.
Proof.
  unfold String.ltb, String.leb. rewrite (String.compare_antisym s2 s1).
  destruct (String.compare s1 s2); simpl; congruence.
Qed.

(** ** Proofs: the stable sort by card name *)

Lemma insert_by_card_perm x l : Permutation (insert_by_card x l) (x :: l).
Proof.
  induction l as [|y l IH]; simpl; [reflexivity|].
  destruct (String.ltb (card y) (card x)); [|reflexivity].
  rewrite IH. apply perm_swap.
Qed.

Lemma sort_by_card_perm l : Permutation (sort_by_card l) l.
Proof.
  induction l as [|x l IH]; simpl; [reflexivity|].
  rewrite insert_by_card_perm. apply perm_skip, IH.
Qed.

(** The first row of the sorted list has the least card name. *)
Lemma sort_by_card_head l :
  match sort_by_card l with
  | [] => l = []
  | h :: _ => In h l /\ forall y, In y l -> String.leb (card h) (card y) = true
  end.
Proof.
  induction l as [|a l IH]; [reflexivity|].
  cbn [sort_by_card fold_right]. fold (sort_by_card l).
  destruct (sort_by_card l) as [|h t] eqn:Hs.
  - subst l. simpl. split; [auto|]. intros y [<-|[]]. apply string_leb_refl.
  - destruct IH as [Hin Hmin]. simpl.
    destruct (String.ltb (card h) (card a)) eqn:Hlt.
    + split; [right; exact Hin|]. intros y [<-|Hy]; [apply string_ltb_leb; exact Hlt|].
      apply Hmin, Hy.
    + apply string_not_ltb_leb in Hlt.
      split; [left; reflexivity|]. intros y [<-|Hy]; [apply string_leb_refl|].
      eapply string_leb_trans; [exact Hlt|]. apply Hmin, Hy.
Qed.

(** ** Proofs: maxima and tolerance *)

Lemma py_max_step_ge_y cur y : y <= py_max_step cur y.
Proof.
  unfold py_max_step. destruct (Qle_bool y cur) eqn:H; [|apply Qle_refl].
  apply Qle_bool_iff, H.
Qed.

Lemma fold_py_max_step xs x :
  x <= fold_left py_max_step xs x /\
  (forall y, In y xs -> y <= fold_left py_max_step xs x) /\
  (fold_left py_max_step xs x = x \/ In (fold_left py_max_step xs x) xs).
Proof.
  revert x. induction xs as [|y xs IH]; intros x; simpl.
  - split; [apply Qle_refl|]. split; [intros _ []|]. left; reflexivity.
  - destruct (IH (py_max_step x y)) as [H1 [H2 H3]].
    split; [|split].
    + eapply Qle_trans; [apply py_max_step_ge_cur|exact H1].
    + intros z [<-|Hz]; [|apply H2, Hz].
      eapply Qle_trans; [apply py_max_step_ge_y|exact H1].
    + destruct H3 as [H3|H3]; [|right; right; exact H3].
      rewrite H3. unfold py_max_step. destruct (Qle_bool y x); [left|right; left]; reflexivity.
Qed.

Lemma py_max_ok (l : list Q) :
  l <> [] -> exists m, py_max l = Ok m /\ In m l /\ is_max l m.
Proof.
  destruct l as [|x xs]; [congruence|]. intros _.
  exists (fold_left py_max_step xs x). split; [reflexivity|].
  destruct (fold_py_max_step xs x) as [H1 [H2 H3]].
  assert (Hin : In (fold_left py_max_step xs x) (x :: xs))
    by (destruct H3 as [->|H3]; [left|right]; auto).
  split; [exact Hin|]. split.
  - intros y [<-|Hy]; [exact H1|apply H2, Hy].
  - eexists; split; [exact Hin|reflexivity].
Qed.

Lemma is_max_perm_eq l l' m m' :
  Permutation l l' -> is_max l m -> is_max l' m' -> m == m'.
Proof.
  intros Hp [Hub [x [Hx Hxm]]] [Hub' [x' [Hx' Hxm']]].
  apply Qle_antisym.
  - rewrite <- Hxm. apply Hub'. eapply Permutation_in; eauto.
  - rewrite <- Hxm'. apply Hub. eapply Permutation_in; [symmetry|]; eauto.
Qed.

Lemma isclose_compat a a' b b' : a == a' -> b == b' -> isclose a b = isclose a' b'.
Proof. intros Ha Hb. unfold isclose. rewrite Ha, Hb. reflexivity. Qed.

Lemma isclose_refl a : isclose a a = true.
Proof. unfold isclose. rewrite (proj2 (Qeq_bool_iff a a) (Qeq_refl a)). reflexivity. Qed.

Lemma filter_perm {A} (f : A -> bool) l l' :
  Permutation l l' -> Permutation (List.filter f l) (List.filter f l').
Proof.
  induction 1 as [|x l l' _ IH|x y l|l l' l'' _ IH1 _ IH2]; simpl.
  - constructor.
  - destruct (f x); [apply perm_skip|]; exact IH.
  - destruct (f x), (f y); try apply perm_swap; try apply perm_skip; reflexivity.
  - etransitivity; eauto.
Qed.

Lemma in_map_max {A} (f : A -> Q) l m :
  In m (map f l) -> exists x, In x l /\ f x = m.
Proof. rewrite in_map_iff. intros [x [Hx Hin]]. eauto. Qed.

Lemma eff_tied_of_compat rows m m' :
  m == m' -> eff_tied_of rows m = eff_tied_of rows m'.
Proof.
  intros H. unfold eff_tied_of. apply filter_ext. intros r.
  apply isclose_compat; [reflexivity|exact H].
Qed.

(** What [deterministic_best] returns on a non-empty list: a row tied
    (within tolerance) on the maximum effective multiplier, tied on the
    maximum base multiplier of those rows, with the least card name among
    the rows tied on both. *)
Lemma deterministic_best_spec (rows : list row) :
  rows <> [] ->
  exists r, deterministic_best rows = Ok (Some r) /\
   forall m_eff m_base,
     is_max (map effective_multiplier rows) m_eff ->
     is_max (map base_multiplier (eff_tied_of rows m_eff)) m_base ->
     In r (eff_tied_of rows m_eff) /\ isclose (base_multiplier r) m_base = true /\
     forall r', In r' (eff_tied_of rows m_eff) ->
       isclose (base_multiplier r') m_base = true ->
       String.leb (card r) (card r') = true.
Proof.
  intros Hne.
  destruct (py_max_ok (map effective_multiplier rows)) as [m [Hm [Hmin Hmax]]].
  { destruct rows; [congruence|discriminate]. }
  assert (HT : forall m', is_max (map effective_multiplier rows) m' ->
            eff_tied_of rows m' = eff_tied_of rows m).
  { intros m' H'. apply eff_tied_of_compat.
    eapply is_max_perm_eq; [reflexivity|exact H'|exact Hmax]. }
  assert (HTne : eff_tied_of rows m <> []).
  { apply in_map_max in Hmin as [r0 [Hr0 Heq]].
    intros Hnil. assert (Hin : In r0 (eff_tied_of rows m)).
    { unfold eff_tied_of. apply filter_In. split; [exact Hr0|].
      rewrite Heq. apply isclose_refl. }
    rewrite Hnil in Hin. exact Hin. }
  destruct rows as [|r0 rs]; [congruence|].
  unfold deterministic_best. cbv beta iota. rewrite Hm. cbn [res_bind].
  change (List.filter (fun r => isclose (effective_multiplier r) m) (r0 :: rs))
    with (eff_tied_of (r0 :: rs) m).
  remember (eff_tied_of (r0 :: rs) m) as T eqn:HTdef.
  destruct (length T =? 1)%nat eqn:HL.
  - destruct T as [|r [|r1 T']]; try discriminate. cbn [index0 res_bind].
    exists r. split; [reflexivity|]. intros m_eff m_base He Hb.
    rewrite (HT _ He) in Hb |- *.
    assert (Hbr : m_base == base_multiplier r).
    { eapply is_max_perm_eq; [reflexivity|exact Hb|].
      split; [intros x [<-|[]]; apply Qle_refl|exists (base_multiplier r); split; [left|]; reflexivity]. }
    split; [left; reflexivity|]. split.
    + rewrite (isclose_compat _ (base_multiplier r) _ (base_multiplier r)); try reflexivity.
      apply isclose_refl. exact Hbr.
    + intros r' [<-|[]] _. apply string_leb_refl.
  - assert (HbT : map base_multiplier T <> []) by (destruct T; [congruence|discriminate]).
    destruct (py_max_ok _ HbT) as [mb [Hmb [Hmbin Hmbmax]]].
    rewrite Hmb. cbn [res_bind].
    remember (List.filter (fun r => isclose (base_multiplier r) mb) T) as B eqn:HBdef.
    assert (HB : forall r', In r' T -> isclose (base_multiplier r') mb = true -> In r' B).
    { intros r' H1 H2. rewrite HBdef. apply filter_In. auto. }
    assert (HBsub : forall r', In r' B -> In r' T /\ isclose (base_multiplier r') mb = true).
    { intros r'. rewrite HBdef. apply filter_In. }
    assert (Hclose : forall m_eff m_base,
              is_max (map effective_multiplier (r0 :: rs)) m_eff ->
              is_max (map base_multiplier (eff_tied_of (r0 :: rs) m_eff)) m_base ->
              eff_tied_of (r0 :: rs) m_eff = T /\
              forall x, isclose x m_base = isclose x mb).
    { intros m_eff m_base He Hb. rewrite (HT _ He) in Hb |- *.
      split; [reflexivity|]. intros x. apply isclose_compat; [reflexivity|].
      eapply is_max_perm_eq; [reflexivity|exact Hb|exact Hmbmax]. }
    destruct (length B =? 1)%nat eqn:HLB.
    + destruct B as [|r [|r1 B']]; try discriminate. cbn [index0 res_bind].
      exists r. split; [reflexivity|]. intros m_eff m_base He Hb.
      destruct (Hclose _ _ He Hb) as [-> Hc]. rewrite !Hc.
      destruct (HBsub r (or_introl eq_refl)) as [HrT Hrc].
      split; [exact HrT|]. split; [exact Hrc|].
      intros r' Hr'T Hr'c. rewrite Hc in Hr'c. destruct (HB r' Hr'T Hr'c) as [<-|[]]. apply string_leb_refl.
    + pose proof (sort_by_card_head B) as Hsort.
      destruct (sort_by_card B) as [|h t].
      * exfalso. apply in_map_max in Hmbin as [rb [Hrb Heq]].
        assert (In rb B) as HrbB.
        { apply HB; [exact Hrb|]. rewrite Heq. apply isclose_refl. }
        rewrite Hsort in HrbB. exact HrbB.
      * cbn [index0 res_bind]. destruct Hsort as [HhB Hhmin].
        exists h. split; [reflexivity|]. intros m_eff m_base He Hb.
        destruct (Hclose _ _ He Hb) as [-> Hc]. rewrite !Hc.
        destruct (HBsub h HhB) as [HhT Hhc].
        split; [exact HhT|]. split; [exact Hhc|].
        intros r' Hr'T Hr'c. rewrite Hc in Hr'c. apply Hhmin, HB; assumption.
Qed.

Lemma is_max_perm l l' m : Permutation l l' -> is_max l m -> is_max l' m.
Proof.
  intros Hp [Hub [x [Hx Hxm]]]. split.
  - intros y Hy. apply Hub. eapply Permutation_in; [symmetry|]; eauto.
  - exists x. split; [eapply Permutation_in; eauto|exact Hxm].
Qed.

Lemma eff_tied_of_nonempty rows m :
  is_max (map effective_multiplier rows) m -> exists r, In r (eff_tied_of rows m).
Proof.
  intros [_ [x [Hx Hxm]]]. apply in_map_max in Hx as [r [Hr <-]].
  exists r. unfold eff_tied_of. apply filter_In. split; [exact Hr|].
  rewrite (isclose_compat _ (effective_multiplier r) _ (effective_multiplier r));
    [apply isclose_refl|reflexivity|symmetry; exact Hxm].
Qed.

Lemma base_max_exists rows m :
  is_max (map effective_multiplier rows) m ->
  exists mb, is_max (map base_multiplier (eff_tied_of rows m)) mb.
Proof.
  intros H. destruct (eff_tied_of_nonempty _ _ H) as [r Hr].
  destruct (py_max_ok (map base_multiplier (eff_tied_of rows m))) as [mb [_ [_ Hmb]]].
  { destruct (eff_tied_of rows m); [destruct Hr|discriminate]. }
  eauto.
Qed.

(** ** Claim theorems: the deterministic selector *)

(** C1 (as amended): on the empty list [deterministic_best] returns
    [None]; on a non-empty list it returns one of the rows, whose effective
    multiplier is at most the maximum and within the [math.isclose]
    tolerance (rel_tol = abs_tol = 1e-9) of it. *)
Theorem deterministic_best_near_max (rows : list row) :
  deterministic_best [] = Ok None /\
  (rows <> [] ->
   exists r m, deterministic_best rows = Ok (Some r) /\ In r rows /\
     is_max (map effective_multiplier rows) m /\
     effective_multiplier r <= m /\ isclose (effective_multiplier r) m = true).
Proof.
  split; [reflexivity|]. intros Hne.
  destruct (py_max_ok (map effective_multiplier rows)) as [m [_ [_ Hm]]].
  { destruct rows; [congruence|discriminate]. }
  destruct (base_max_exists _ _ Hm) as [mb Hmb].
  destruct (deterministic_best_spec rows Hne) as [r [Hr Hspec]].
  destruct (Hspec m mb Hm Hmb) as [HrT _].
  unfold eff_tied_of in HrT. apply filter_In in HrT as [Hin Hclose].
  exists r, m. split; [exact Hr|]. split; [exact Hin|]. split; [exact Hm|].
  split; [apply (proj1 Hm), in_map, Hin|exact Hclose].
Qed.

(** C1 counterexample: the selector returns card "A" with effective
    multiplier 1 although card "B" has the strictly larger effective
    multiplier 1.0000000005, within tolerance of 1 but higher. *)
Lemma deterministic_best_not_exact_max :
  exists r, deterministic_best near_tie_rows = Ok (Some r) /\ card r = "A" /\
    exists r', In r' near_tie_rows /\ effective_multiplier r < effective_multiplier r'.
Proof.
  eexists. split; [vm_compute; reflexivity|]. split; [reflexivity|].
  exists (mk_row "B" (2000000001 # 2000000000) 0 (1 # 2) (2000000001 # 2000000000)).
  split; [vm_compute; right; left; reflexivity|]. reflexivity.
Qed.

(** C2: the selected row is tied (within tolerance) on the maximum
    effective multiplier, its base multiplier is tied on the maximum base
    multiplier of those rows, and its card name is the least, in
    case-sensitive lexicographic order, among the rows tied on both; with
    equal effective multipliers the higher base wins, and with both equal
    "Alpha" beats "Beta". *)
Theorem deterministic_best_tie_break :
  (forall (rows : list row) (r : row) (m_eff m_base : Q),
     deterministic_best rows = Ok (Some r) ->
     is_max (map effective_multiplier rows) m_eff ->
     is_max (map base_multiplier (eff_tied_of rows m_eff)) m_base ->
     In r (eff_tied_of rows m_eff) /\ isclose (base_multiplier r) m_base = true /\
     forall r', In r' (eff_tied_of rows m_eff) ->
       isclose (base_multiplier r') m_base = true ->
       String.leb (card r) (card r') = true) /\
  deterministic_best [mk_row "A" 2 0 1 2; mk_row "B" 2 0 (3 # 2) 2] =
    Ok (Some (mk_row "B" 2 0 (3 # 2) 2)) /\
  deterministic_best [mk_row "Beta" 2 0 1 2; mk_row "Alpha" 2 0 1 2] =
    Ok (Some (mk_row "Alpha" 2 0 1 2)).
Proof.
  split; [|split; reflexivity].
  intros rows r m_eff m_base Hr He Hb.
  assert (Hne : rows <> []) by (intros ->; discriminate).
  destruct (deterministic_best_spec rows Hne) as [r' [Hr' Hspec]].
  rewrite Hr in Hr'. injection Hr' as <-. exact (Hspec _ _ He Hb).
Qed.

Lemma same_card_result_rows (rows rows' : list row) :
  Permutation rows rows' ->
  same_card_result (deterministic_best rows) (deterministic_best rows').
Proof.
  intros Hp. destruct rows as [|r0 rs].
  - apply Permutation_nil in Hp. subst. exact I.
  - assert (Hne : r0 :: rs <> []) by discriminate.
    assert (Hne' : rows' <> []) by (intros ->; symmetry in Hp; apply Permutation_nil in Hp; discriminate).
    destruct (py_max_ok (map effective_multiplier (r0 :: rs))) as [m [_ [_ Hm]]]; [discriminate|].
    assert (Hm' : is_max (map effective_multiplier rows') m)
      by (eapply is_max_perm; [apply Permutation_map, Hp|exact Hm]).
    assert (HT : Permutation (eff_tied_of (r0 :: rs) m) (eff_tied_of rows' m))
      by (apply filter_perm, Hp).
    destruct (base_max_exists _ _ Hm) as [mb Hmb].
    assert (Hmb' : is_max (map base_multiplier (eff_tied_of rows' m)) mb)
      by (eapply is_max_perm; [apply Permutation_map, HT|exact Hmb]).
    destruct (deterministic_best_spec _ Hne) as [r [-> Hs]].
    destruct (deterministic_best_spec _ Hne') as [r' [-> Hs']].
    destruct (Hs _ _ Hm Hmb) as [HrT [Hrc Hrmin]].
    destruct (Hs' _ _ Hm' Hmb') as [Hr'T [Hr'c Hr'min]].
    simpl. apply String.leb_antisym.
    + apply Hrmin; [|exact Hr'c]. eapply Permutation_in; [symmetry; exact HT|exact Hr'T].
    + apply Hr'min; [|exact Hrc]. eapply Permutation_in; [exact HT|exact HrT].
Qed.

(** C10: reordering the rows, or the wallet cards the rows are built
    from, does not change the card [deterministic_best] selects. *)
Theorem deterministic_best_permutation_invariant :
  (forall rows rows' : list row, Permutation rows rows' ->
     same_card_result (deterministic_best rows) (deterministic_best rows')) /\
  (forall (user_cards user_cards' : list string) (rewards : rewards_doc)
          (canonical_category : option string) (rotating_active : list string),
     Permutation user_cards user_cards' ->
     same_card_result
       (deterministic_best (build_rows user_cards rewards canonical_category rotating_active))
       (deterministic_best (build_rows user_cards' rewards canonical_category rotating_active))).
Proof.
  split; [exact same_card_result_rows|].
  intros user_cards user_cards' rewards canonical_category rotating_active Hp.
  apply same_card_result_rows. unfold build_rows. apply Permutation_map, Hp.
Qed.

(** ** Claim theorems: the explanation arbitrator *)

Lemma build_rows_nonempty user_cards rewards canonical_category rotating_active :
  user_cards <> [] -> build_rows user_cards rewards canonical_category rotating_active <> [].
Proof. unfold build_rows. destruct user_cards; [congruence|discriminate]. Qed.

Lemma str_mem_In (n : string) (l : list string) : In n l -> str_mem n l = true.
Proof.
  intros H. unfold str_mem. apply existsb_exists. exists n. split; [exact H|].
  apply String.eqb_refl.
Qed.

Lemma find_card (rows : list row) (n : string) :
  In n (map card rows) ->
  exists r, find (fun r => String.eqb (card r) n) rows = Some r /\ card r = n.
Proof.
  intros Hin. destruct (find (fun r => String.eqb (card r) n) rows) as [r|] eqn:Hf.
  - apply find_some in Hf as [_ Hf]. apply String.eqb_eq in Hf. eauto.
  - exfalso. apply in_map_iff in Hin as [r [Hr Hin]].
    pose proof (find_none _ _ Hf r Hin) as H. cbv beta in H.
    rewrite Hr, String.eqb_refl in H. discriminate.
Qed.

Ltac unfold_analyze Hw :=
  unfold analyze_location_and_recommend_card, analyze_body;
  rewrite Hw; cbv beta iota zeta.

(** C3: for a non-empty wallet the recommended card is the deterministic
    argmax whatever the collaborator replies, and a reply naming a card of
    the table other than the argmax is overridden with the explanation
    "<best.card> wins with <best.effective_multiplier>x on
    <category|'base'> (corrected to argmax)." *)
Theorem analyze_overrides_collaborator (float_repr : Q -> string)
    (json_loads : string -> option jval) (rewards : rewards_doc) (md : location_metadata) :
  wallet_of md <> [] ->
  exists best,
    deterministic_best (build_rows (wallet_of md) rewards (canonical_of md) (rotating_of md))
      = Ok (Some best) /\
    (forall reply,
       recommended_card
         (analyze_location_and_recommend_card float_repr json_loads (Ok rewards) md reply)
       = card best) /\
    (forall content kvs n,
       json_loads (py_strip (match content with Some c => c | None => "" end))
         = Some (JObj kvs) ->
       obj_get kvs "recommended_card" = Some (JStr n) ->
       In n (map card (build_rows (wallet_of md) rewards (canonical_of md) (rotating_of md))) ->
       n <> card best ->
       analyze_location_and_recommend_card float_repr json_loads (Ok rewards) md
         (CollabReturns content) =
       mk_decision (card best)
         (JStr (wins_text float_repr best (canonical_of md) " (corrected to argmax)."))).
Proof.
  intros Hne. destruct (wallet_of md) as [|c cs] eqn:Hw; [congruence|].
  destruct (deterministic_best_spec _ (build_rows_nonempty (c :: cs) rewards
              (canonical_of md) (rotating_of md) Hne)) as [best [Hbest _]].
  exists best. split; [exact Hbest|]. split.
  - intros reply. unfold_analyze Hw. rewrite Hbest.
    destruct reply as [e|content]; [reflexivity|].
    destruct (json_loads _) as [[| | | | | |kvs]|]; try reflexivity.
    destruct (match obj_get kvs "recommended_card" with
              | Some (JStr n) => _ | _ => false end); [|reflexivity].
    cbn [negb orb].
    destruct (find _ _) as [chosen|] eqn:Hf; [|reflexivity].
    destruct (String.eqb (card chosen) (card best)) eqn:He; [|reflexivity].
    apply String.eqb_eq in He. destruct (obj_get kvs "explanation");
      [destruct (py_truthy _)|]; exact He.
  - intros content kvs n Hj Hn Hin Hneq. unfold_analyze Hw. rewrite Hbest, Hj.
    cbv beta iota. rewrite Hn, (str_mem_In _ _ Hin). cbn [negb orb].
    destruct (find_card _ _ Hin) as [chosen [Hf Hc]]. rewrite Hf.
    assert (He : String.eqb (card chosen) (card best) = false)
      by (apply String.eqb_neq; congruence).
    rewrite He. reflexivity.
Qed.

(** C4 (as amended): for a non-empty wallet, a reply that does not parse,
    or that parses to an object whose "recommended_card" is not among the
    row identifiers, returns the argmax card with the explanation
    "<card> wins with <effective_multiplier>x on <category|'base'>
    (deterministic fallback)."; an exception from the collaborator call
    (e.g. a timeout) is caught by the outer handler and returns the same
    card with the explanation "... (fallback)."; no case raises. *)
Theorem analyze_collaborator_failures (float_repr : Q -> string)
    (json_loads : string -> option jval) (rewards : rewards_doc) (md : location_metadata) :
  wallet_of md <> [] ->
  exists best,
    deterministic_best (build_rows (wallet_of md) rewards (canonical_of md) (rotating_of md))
      = Ok (Some best) /\
    (forall content,
       json_loads (py_strip (match content with Some c => c | None => "" end)) = None ->
       analyze_location_and_recommend_card float_repr json_loads (Ok rewards) md
         (CollabReturns content) =
       mk_decision (card best)
         (JStr (wins_text float_repr best (canonical_of md) " (deterministic fallback)."))) /\
    (forall content kvs,
       json_loads (py_strip (match content with Some c => c | None => "" end))
         = Some (JObj kvs) ->
       match obj_get kvs "recommended_card" with
       | Some (JStr n) =>
           ~ In n (map card (build_rows (wallet_of md) rewards (canonical_of md) (rotating_of md)))
       | _ => True
       end ->
       analyze_location_and_recommend_card float_repr json_loads (Ok rewards) md
         (CollabReturns content) =
       mk_decision (card best)
         (JStr (wins_text float_repr best (canonical_of md) " (deterministic fallback)."))) /\
    (forall e,
       analyze_location_and_recommend_card float_repr json_loads (Ok rewards) md
         (CollabRaises e) =
       mk_decision (card best) (JStr (wins_text float_repr best (canonical_of md) " (fallback)."))).
Proof.
  intros Hne. destruct (wallet_of md) as [|c cs] eqn:Hw; [congruence|].
  destruct (deterministic_best_spec _ (build_rows_nonempty (c :: cs) rewards
              (canonical_of md) (rotating_of md) Hne)) as [best [Hbest _]].
  exists best. split; [exact Hbest|]. split; [|split].
  - intros content Hj. unfold_analyze Hw. rewrite Hbest, Hj. reflexivity.
  - intros content kvs Hj Hn. unfold_analyze Hw. rewrite Hbest, Hj. cbv beta iota.
    destruct (obj_get kvs "recommended_card") as [[| | | |n| |]|]; try reflexivity.
    destruct (str_mem n _) eqn:Hm; [|reflexivity].
    exfalso. apply Hn. unfold str_mem in Hm. apply existsb_exists in Hm as [n' [Hin Heq]].
    apply String.eqb_eq in Heq. subst n'. exact Hin.
  - intros e. unfold_analyze Hw. rewrite Hbest. reflexivity.
Qed.

(** C4 counterexample: when the collaborator call raises (a timeout), the
    explanation ends in "(fallback)." and not in "(deterministic
    fallback)." as for a parse failure. *)
Lemma analyze_timeout_explanation :
  analyze_location_and_recommend_card example_float_repr example_json_loads
    (Ok example_rewards) example_md (CollabRaises (mk_exn "APITimeoutError" "Request timed out."))
  = mk_decision "Citi Custom Cash" (JStr "Citi Custom Cash wins with 5.0x on dining (fallback).") /\
  analyze_location_and_recommend_card example_float_repr example_json_loads
    (Ok example_rewards) example_md (CollabReturns (Some "not json"))
  = mk_decision "Citi Custom Cash"
      (JStr "Citi Custom Cash wins with 5.0x on dining (deterministic fallback).").
Proof. split; vm_compute; reflexivity. Qed.

(** C6: with no wallet cards (the key missing, [null] or an empty list)
    the function returns the sentinel "No specific recommendation" with a
    diagnostic explanation, whatever the collaborator does; with the
    rewards loaded the diagnostic is "No user_cards provided". *)
Theorem analyze_empty_wallet (float_repr : Q -> string) (json_loads : string -> option jval)
    (loaded : res rewards_doc) (md : location_metadata) (reply : collab_reply) :
  lm_user_cards md = None \/ lm_user_cards md = Some [] ->
  recommended_card (analyze_location_and_recommend_card float_repr json_loads loaded md reply)
    = "No specific recommendation" /\
  (exists msg,
     explanation (analyze_location_and_recommend_card float_repr json_loads loaded md reply)
     = JStr ("Unable to compute optimal card: " ++ msg)) /\
  (forall rewards, loaded = Ok rewards ->
     explanation (analyze_location_and_recommend_card float_repr json_loads loaded md reply)
     = JStr "Unable to compute optimal card: No user_cards provided").
Proof.
  intros Hu. assert (Hw : wallet_of md = []) by (unfold wallet_of; destruct Hu as [-> | ->]; reflexivity).
  destruct loaded as [rewards|e].
  - unfold_analyze Hw. split; [reflexivity|]. split; [eexists; reflexivity|].
    intros ? _. reflexivity.
  - unfold analyze_location_and_recommend_card, analyze_body. cbv beta iota.
    split; [reflexivity|]. split; [eexists; reflexivity|]. intros ? H. discriminate.
Qed.

(** ** Witnesses: the claim theorems applied at concrete inputs *)

Ltac concrete_is_max :=
  split;
  [ intros ? Hx; vm_compute in Hx; repeat destruct Hx as [<-|Hx]; try contradiction;
    apply Qle_bool_iff; reflexivity
  | eexists; split; [vm_compute; left; reflexivity|reflexivity] ].

Lemma deterministic_best_near_max_witness :
  near_tie_rows <> [] /\
  exists r m, deterministic_best near_tie_rows = Ok (Some r) /\ In r near_tie_rows /\
    is_max (map effective_multiplier near_tie_rows) m /\
    effective_multiplier r <= m /\ isclose (effective_multiplier r) m = true.
Proof.
  assert (H : near_tie_rows <> []) by (vm_compute; discriminate).
  split; [exact H|]. exact (proj2 (deterministic_best_near_max near_tie_rows) H).
Defined.

Lemma deterministic_best_tie_break_witness :
  (deterministic_best name_tie_rows = Ok (Some (mk_row "Alpha" 2 0 1 2)) /\
   is_max (map effective_multiplier name_tie_rows) 2 /\
   is_max (map base_multiplier (eff_tied_of name_tie_rows 2)) 1) /\
  (In (mk_row "Alpha" 2 0 1 2) (eff_tied_of name_tie_rows 2) /\
   isclose (base_multiplier (mk_row "Alpha" 2 0 1 2)) 1 = true /\
   forall r', In r' (eff_tied_of name_tie_rows 2) ->
     isclose (base_multiplier r') 1 = true ->
     String.leb (card (mk_row "Alpha" 2 0 1 2)) (card r') = true).
Proof.
  assert (H1 : deterministic_best name_tie_rows = Ok (Some (mk_row "Alpha" 2 0 1 2)))
    by reflexivity.
  assert (H2 : is_max (map effective_multiplier name_tie_rows) 2) by concrete_is_max.
  assert (H3 : is_max (map base_multiplier (eff_tied_of name_tie_rows 2)) 1)
    by concrete_is_max.
  split; [split; [exact H1|split; [exact H2|exact H3]]|].
  exact (proj1 deterministic_best_tie_break _ _ _ _ H1 H2 H3).
Defined.

Lemma analyze_overrides_collaborator_witness :
  wallet_of example_md <> [] /\
  analyze_location_and_recommend_card example_float_repr example_json_loads
    (Ok example_rewards) example_md (CollabReturns (Some "recommended_card: Amex Gold")) =
  mk_decision "Citi Custom Cash"
    (JStr "Citi Custom Cash wins with 5.0x on dining (corrected to argmax).").
Proof.
  assert (Hw : wallet_of example_md <> []) by discriminate.
  split; [exact Hw|].
  destruct (analyze_overrides_collaborator example_float_repr example_json_loads
              example_rewards example_md Hw) as [best [Hb [_ Hc]]].
  vm_compute in Hb. injection Hb as Hb. subst best.
  rewrite (Hc (Some "recommended_card: Amex Gold") [("recommended_card", JStr "Amex Gold")]
             "Amex Gold").
  - vm_compute. reflexivity.
  - reflexivity.
  - reflexivity.
  - vm_compute. left. reflexivity.
  - discriminate.
Defined.

Lemma analyze_collaborator_failures_witness :
  wallet_of example_md <> [] /\
  analyze_location_and_recommend_card example_float_repr example_json_loads
    (Ok example_rewards) example_md (CollabReturns (Some "not json")) =
  mk_decision "Citi Custom Cash"
    (JStr "Citi Custom Cash wins with 5.0x on dining (deterministic fallback).").
Proof.
  assert (Hw : wallet_of example_md <> []) by discriminate.
  split; [exact Hw|].
  destruct (analyze_collaborator_failures example_float_repr example_json_loads
              example_rewards example_md Hw) as [best [Hb [Hp _]]].
  vm_compute in Hb. injection Hb as Hb. subst best.
  rewrite (Hp (Some "not json")); [vm_compute; reflexivity|reflexivity].
Defined.

Lemma build_rows_row_invariant_witness :
  In (mk_row "Citi Custom Cash" 0 0 1 1)
     (build_rows ["Citi Custom Cash"] rotating_rewards (Some "gas") ["dining"]) /\
  rotating_multiplier (mk_row "Citi Custom Cash" 0 0 1 1) = 0.
Proof.
  assert (H : In (mk_row "Citi Custom Cash" 0 0 1 1)
                (build_rows ["Citi Custom Cash"] rotating_rewards (Some "gas") ["dining"]))
    by (vm_compute; left; reflexivity).
  split; [exact H|].
  exact (proj2 (proj2 (build_rows_row_invariant _ _ _ _ _ H)) "gas" eq_refl eq_refl).
Defined.

Lemma analyze_empty_wallet_witness :
  lm_user_cards (mk_location_metadata None (Some "5812") None (Some []) None) = Some [] /\
  recommended_card
    (analyze_location_and_recommend_card example_float_repr example_json_loads
       (Ok example_rewards) (mk_location_metadata None (Some "5812") None (Some []) None)
       (CollabReturns None))
  = "No specific recommendation".
Proof.
  split; [reflexivity|].
  exact (proj1 (analyze_empty_wallet example_float_repr example_json_loads
                  (Ok example_rewards) (mk_location_metadata None (Some "5812") None (Some []) None)
                  (CollabReturns None) (or_intror eq_refl))).
Defined.

Lemma canonicalize_category_precedence_witness :
  canonicalize_category (Some "gas") None (Some ["establishment"; "Cafe"]) = Some "dining".
Proof.
  apply (proj1 (proj2 canonicalize_category_precedence) _ _ _
           ["establishment"] "cafe" []).
  - reflexivity.
  - reflexivity.
  - repeat constructor.
  - reflexivity.
Defined.

Lemma build_rows_category_multiplier_witness :
  category_multiplier
    (build_row (cards_of travel_rewards) (cc_of (Some "flights")) [] "capital one venture")
  = or_float (card_rewards (cards_of travel_rewards) "Capital One Venture" !! "travel") 0.
Proof.
  apply (proj1 (proj2 (build_rows_category_multiplier ["capital one venture"] travel_rewards
           (Some "flights") [] 0 "capital one venture" _ eq_refl eq_refl)) "flights").
  - reflexivity.
  - left. reflexivity.
  - reflexivity.
Defined.

Lemma normalize_card_name_idempotent_witness :
  table_get card_mappings (py_strip (py_lower "My Store Card")) = None /\
  normalize_card_name "My Store Card" = "My Store Card".
Proof.
  assert (H : table_get card_mappings (py_strip (py_lower "My Store Card")) = None)
    by reflexivity.
  split; [exact H|]. exact (proj2 (normalize_card_name_idempotent "My Store Card") H).
Defined.

Lemma deterministic_best_permutation_invariant_witness :
  Permutation name_tie_rows (rev name_tie_rows) /\
  same_card_result (deterministic_best name_tie_rows) (deterministic_best (rev name_tie_rows)).
Proof.
  assert (H : Permutation name_tie_rows (rev name_tie_rows)) by apply Permutation_rev.
  split; [exact H|]. exact (proj1 deterministic_best_permutation_invariant _ _ H).
Defined.

(** ** Further properties: the Places client, the routes and the arbitrator *)

(** ** Proofs: the Places client *)

Lemma table_get_some_iff {V} (t : list (string * V)) k :
  (exists v, table_get t k = Some v) <-> In k (map fst t).
Proof.
  induction t as [|[k' v'] t IH]; simpl; [split; [intros [? ?]; discriminate|tauto]|].
  destruct (String.eqb_spec k k') as [->|Hne].
  - split; [auto|eauto].
  - rewrite IH. split; [auto|intros [->|H]; [congruence|exact H]].
Qed.

Lemma mcc_mapping_category_mapping_keys :
  map fst PlacesClient.mcc_mapping = map fst PlacesClient.category_mapping.
Proof. reflexivity. Qed.

Lemma category_mapping_total t m :
  table_get PlacesClient.mcc_mapping t = Some m ->
  exists c, table_get PlacesClient.category_mapping t = Some c.
Proof.
  intros H. apply table_get_some_iff. rewrite <- mcc_mapping_category_mapping_keys.
  apply table_get_some_iff. eauto.
Qed.

Lemma category_mapping_values :
  forallb (fun kv => str_truthy (snd kv) &&
             Bool.eqb (String.eqb (snd kv) "General")
               (String.eqb (fst kv) "establishment" || String.eqb (fst kv) "point_of_interest"))
    PlacesClient.category_mapping = true.
Proof. reflexivity. Qed.

Lemma category_mapping_value t c :
  table_get PlacesClient.category_mapping t = Some c ->
  str_truthy c = true /\ (c = "General" <-> t = "establishment" \/ t = "point_of_interest").
Proof.
  intros H. apply table_get_In in H.
  pose proof (proj1 (forallb_forall _ _) category_mapping_values _ H) as Hv.
  cbn [fst snd] in Hv. apply andb_prop in Hv as [Ht Hg]. split; [exact Ht|].
  apply Bool.eqb_prop in Hg. rewrite <- (String.eqb_eq c), Hg, Bool.orb_true_iff,
    !String.eqb_eq. tauto.
Qed.

Lemma mcc_mapping_values :
  forallb (fun kv => str_truthy (snd kv)) PlacesClient.mcc_mapping = true.
Proof. reflexivity. Qed.

Lemma mcc_mapping_value t m :
  table_get PlacesClient.mcc_mapping t = Some m -> str_truthy m = true.
Proof.
  intros H. apply table_get_In in H.
  exact (proj1 (forallb_forall _ _) mcc_mapping_values _ H).
Qed.

Lemma map_types_split pre t post m :
  Forall (fun u => table_get PlacesClient.mcc_mapping u = None) pre ->
  table_get PlacesClient.mcc_mapping t = Some m ->
  PlacesClient.map_types_to_mcc_category (pre ++ t :: post)%list =
  (Some m, Some (match table_get PlacesClient.category_mapping t with
                 | Some c => c | None => "General" end)).
Proof.
  intros Hpre Ht. induction Hpre as [|u pre Hu _ IH]; cbn [PlacesClient.map_types_to_mcc_category app].
  - rewrite Ht. reflexivity.
  - rewrite Hu. exact IH.
Qed.

Lemma map_types_cases types :
  (Forall (fun u => table_get PlacesClient.mcc_mapping u = None) types /\
   PlacesClient.map_types_to_mcc_category types = (None, None)) \/
  (exists pre t post m c,
     types = (pre ++ t :: post)%list /\
     Forall (fun u => table_get PlacesClient.mcc_mapping u = None) pre /\
     table_get PlacesClient.mcc_mapping t = Some m /\
     table_get PlacesClient.category_mapping t = Some c /\
     PlacesClient.map_types_to_mcc_category types = (Some m, Some c)).
Proof.
  induction types as [|u ts IH]; [left; split; [constructor|reflexivity]|].
  cbn [PlacesClient.map_types_to_mcc_category].
  destruct (table_get PlacesClient.mcc_mapping u) as [m|] eqn:Hu.
  - right. destruct (category_mapping_total _ _ Hu) as [c Hc].
    exists [], u, ts, m, c. rewrite Hc. repeat split; auto.
  - destruct IH as [[Hall Hnone]|(pre & t & post & m & c & -> & Hpre & Ht & Hc & Heq)].
    + left. split; [constructor; assumption|exact Hnone].
    + right. exists (u :: pre), t, post, m, c. repeat split; auto.
Qed.

(** X1: map_types_to_mcc_category returns no MCC exactly when it returns no category, and that happens exactly when none of the place types is a key of mcc_mapping. *)
Theorem map_types_to_mcc_category_none (types : list string) :
  (fst (PlacesClient.map_types_to_mcc_category types) = None <->
   snd (PlacesClient.map_types_to_mcc_category types) = None) /\
  (fst (PlacesClient.map_types_to_mcc_category types) = None <->
   Forall (fun t => table_get PlacesClient.mcc_mapping t = None) types).
Proof.
  destruct (map_types_cases types) as [[Hall ->]|(pre & t & post & m & c & -> & Hpre & Ht & Hc & ->)].
  - cbn [fst snd]. tauto.
  - cbn [fst snd]. split; [split; discriminate|]. split; [discriminate|].
    intros Hall. apply Forall_app in Hall as [_ Hall]. inversion Hall as [|? ? Hn]; cbv beta in Hn; congruence.
Qed.

(** X2: the first place type found in mcc_mapping decides both results: its MCC, and its category_mapping entry, which always exists; later types are ignored. *)
Theorem map_types_to_mcc_category_first_match (pre : list string) (t : string)
    (post : list string) (m : string) :
  Forall (fun u => table_get PlacesClient.mcc_mapping u = None) pre ->
  table_get PlacesClient.mcc_mapping t = Some m ->
  exists category,
    table_get PlacesClient.category_mapping t = Some category /\
    PlacesClient.map_types_to_mcc_category (pre ++ t :: post)%list = (Some m, Some category).
Proof.
  intros Hpre Ht. destruct (category_mapping_total _ _ Ht) as [c Hc].
  exists c. split; [exact Hc|]. rewrite (map_types_split _ _ _ _ Hpre Ht), Hc. reflexivity.
Qed.

(** X3: _get_category_from_types returns "General" when no type has an MCC; when the first mapped type is t, the result is "General" exactly when t is "establishment" or "point_of_interest". *)
Theorem _get_category_from_types_general :
  (forall types, Forall (fun u => table_get PlacesClient.mcc_mapping u = None) types ->
     PlacesClient._get_category_from_types types = "General") /\
  (forall pre t post m,
     Forall (fun u => table_get PlacesClient.mcc_mapping u = None) pre ->
     table_get PlacesClient.mcc_mapping t = Some m ->
     (PlacesClient._get_category_from_types (pre ++ t :: post)%list = "General" <->
      t = "establishment" \/ t = "point_of_interest")).
Proof.
  unfold PlacesClient._get_category_from_types. split.
  - intros types Hall. destruct (map_types_cases types) as [[_ ->]|(pre & t & post & m & c & -> & Hpre & Ht & _)].
    + reflexivity.
    + exfalso. apply Forall_app in Hall as [_ Hall]. inversion Hall as [|? ? Hn]; cbv beta in Hn; congruence.
  - intros pre t post m Hpre Ht. destruct (category_mapping_total _ _ Ht) as [c Hc].
    rewrite (map_types_split _ _ _ _ Hpre Ht), Hc. cbn [snd str_or].
    destruct (category_mapping_value _ _ Hc) as [-> Hg]. exact Hg.
Qed.


Lemma meets_spec (a b : gset string) :
  PlacesClient.meets a b = true <-> exists t, t ∈ a /\ t ∈ b.
Proof.
  unfold PlacesClient.meets. rewrite bool_decide_eq_true. split.
  - intros H. destruct (set_choose_L _ H) as [t Ht]. exists t. set_solver.
  - intros [t [Ha Hb]] Hnil. assert (t ∈ a ∩ b) as Hab by set_solver.
    rewrite Hnil in Hab. set_solver.
Qed.

Lemma elem_of_types (p : place) t :
  t ∈ (list_to_set (types_of p) : gset string) <-> In t (types_of p).
Proof. rewrite elem_of_list_to_set. apply list_elem_of_In. Qed.

Lemma str_mem_iff (s : string) (l : list string) : str_mem s l = true <-> In s l.
Proof.
  unfold str_mem. rewrite existsb_exists. split.
  - intros [x [Hx Heq]]. apply String.eqb_eq in Heq. subst x. exact Hx.
  - intros H. exists s. split; [exact H|apply String.eqb_refl].
Qed.

Lemma keep_result_spec (p : place) :
  PlacesClient.keep_result p = true <->
  (forall t, In t (types_of p) -> t ∉ PlacesClient.exclude_types) /\
  ((exists t, In t (types_of p) /\ t ∈ PlacesClient.business_types) \/
   (let name := py_strip (match pl_name p with Some n => n | None => "" end) in
    (2 < String.length name)%nat /\
    ~ In (py_lower name) ["san francisco"; "california"; "usa"])).
Proof.
  unfold PlacesClient.keep_result. cbv zeta.
  destruct (PlacesClient.meets _ PlacesClient.exclude_types) eqn:He.
  - apply meets_spec in He as [t [Ht He]]. apply elem_of_types in Ht.
    split; [discriminate|]. intros [Hall _]. destruct (Hall t Ht He).
  - assert (Hex : forall t, In t (types_of p) -> t ∉ PlacesClient.exclude_types).
    { intros t Ht Hin. assert (PlacesClient.meets (list_to_set (types_of p)) PlacesClient.exclude_types = true)
        as Hm by (apply meets_spec; exists t; split; [apply elem_of_types|]; assumption).
      congruence. }
    destruct (PlacesClient.meets _ PlacesClient.business_types) eqn:Hb.
    + apply meets_spec in Hb as [t [Ht Hb]]. apply elem_of_types in Ht.
      split; [intros _; split; [exact Hex|left; eauto]|reflexivity].
    + cbn [negb].
      assert (Hnb : ~ exists t, In t (types_of p) /\ t ∈ PlacesClient.business_types).
      { intros [t [Ht Hin]]. assert (PlacesClient.meets (list_to_set (types_of p)) PlacesClient.business_types = true)
          as Hm by (apply meets_spec; exists t; split; [apply elem_of_types|]; assumption).
        congruence. }
      set (name := py_strip (match pl_name p with Some n => n | None => "" end)).
      rewrite !andb_true_iff, negb_true_iff, Nat.ltb_lt.
      split.
      * intros [[_ Hl] Hm]. split; [exact Hex|right]. split; [exact Hl|].
        intros Hin. apply str_mem_iff in Hin. congruence.
      * intros [_ [Hbus|[Hl Hm]]]; [contradiction|].
        split; [split; [destruct name; [cbn in Hl; lia|reflexivity]|exact Hl]|].
        destruct (str_mem _ _) eqn:Hs; [|reflexivity]. apply str_mem_iff in Hs. contradiction.
Qed.

Lemma insert_by_score_perm x l : Permutation (PlacesClient.insert_by_score x l) (x :: l).
Proof.
  induction l as [|y ys IH]; simpl; [reflexivity|].
  destruct (_ <=? _)%nat; [reflexivity|].
  rewrite IH. apply perm_swap.
Qed.

Lemma sort_by_score_desc_perm l : Permutation (PlacesClient.sort_by_score_desc l) l.
Proof.
  induction l as [|x xs IH]; simpl; [reflexivity|].
  rewrite insert_by_score_perm, IH. reflexivity.
Qed.


Lemma insert_by_score_sorted x l :
  Sorted score_ge l -> Sorted score_ge (PlacesClient.insert_by_score x l).
Proof.
  induction l as [|y ys IH]; simpl; intros H; [repeat constructor|].
  destruct (PlacesClient.business_score y <=? PlacesClient.business_score x)%nat eqn:E.
  - constructor; [exact H|]. constructor. unfold score_ge. apply Nat.leb_le. exact E.
  - apply Nat.leb_gt in E. inversion H as [|? ? Hys Hhd]; subst.
    constructor; [apply IH, Hys|].
    destruct ys as [|z zs]; simpl; [constructor; unfold score_ge; lia|].
    destruct (PlacesClient.business_score z <=? PlacesClient.business_score x)%nat;
      constructor; [unfold score_ge; lia|inversion Hhd; assumption].
Qed.

Lemma sort_by_score_desc_sorted l : Sorted score_ge (PlacesClient.sort_by_score_desc l).
Proof.
  induction l as [|x xs IH]; simpl; [constructor|]. apply insert_by_score_sorted, IH.
Qed.

Lemma filter_insert_by_score k x l :
  List.filter (fun p => Nat.eqb (PlacesClient.business_score p) k) (PlacesClient.insert_by_score x l) =
  if Nat.eqb (PlacesClient.business_score x) k
  then x :: List.filter (fun p => Nat.eqb (PlacesClient.business_score p) k) l
  else List.filter (fun p => Nat.eqb (PlacesClient.business_score p) k) l.
Proof.
  induction l as [|y ys IH]; simpl; [reflexivity|].
  destruct (PlacesClient.business_score y <=? PlacesClient.business_score x)%nat eqn:E.
  - reflexivity.
  - simpl. rewrite IH. apply Nat.leb_gt in E.
    destruct (Nat.eqb_spec (PlacesClient.business_score x) k) as [Hx|Hx];
    destruct (Nat.eqb_spec (PlacesClient.business_score y) k) as [Hy|Hy];
      try reflexivity; lia.
Qed.

Lemma sort_by_score_desc_stable k l :
  List.filter (fun p => Nat.eqb (PlacesClient.business_score p) k) (PlacesClient.sort_by_score_desc l) =
  List.filter (fun p => Nat.eqb (PlacesClient.business_score p) k) l.
Proof.
  induction l as [|x xs IH]; simpl; [reflexivity|].
  rewrite filter_insert_by_score, IH. reflexivity.
Qed.

Lemma filter_business_results_in results p :
  In p (PlacesClient._filter_business_results results) <->
  In p results /\ PlacesClient.keep_result p = true.
Proof.
  unfold PlacesClient._filter_business_results. split.
  - intros H. apply filter_In. eapply Permutation_in; [apply sort_by_score_desc_perm|exact H].
  - intros H. eapply Permutation_in; [symmetry; apply sort_by_score_desc_perm|]. apply filter_In, H.
Qed.

(** X4: a result is kept by _filter_business_results exactly when none of its types is excluded and it either has a business type or a stripped name longer than two characters that is not "san francisco", "california" or "usa" in lowercase. *)
Theorem _filter_business_results_membership (results : list place) (p : place) :
  In p results ->
  (In p (PlacesClient._filter_business_results results) <->
   (forall t, In t (types_of p) -> t ∉ PlacesClient.exclude_types) /\
   ((exists t, In t (types_of p) /\ t ∈ PlacesClient.business_types) \/
    (let name := py_strip (match pl_name p with Some n => n | None => "" end) in
     (2 < String.length name)%nat /\
     ~ In (py_lower name) ["san francisco"; "california"; "usa"]))).
Proof.
  intros Hin. rewrite filter_business_results_in, <- keep_result_spec. tauto.
Qed.

(** X5: _filter_business_results returns a permutation of the kept results, sorted by decreasing business score, so its head has the highest score. *)
Theorem _filter_business_results_sorted (results : list place) :
  Permutation (PlacesClient._filter_business_results results)
    (List.filter PlacesClient.keep_result results) /\
  Sorted (fun a b => PlacesClient.business_score b <= PlacesClient.business_score a)%nat
    (PlacesClient._filter_business_results results) /\
  (forall top rest, PlacesClient._filter_business_results results = top :: rest ->
     forall p, In p (PlacesClient._filter_business_results results) ->
       (PlacesClient.business_score p <= PlacesClient.business_score top)%nat).
Proof.
  unfold PlacesClient._filter_business_results. split; [apply sort_by_score_desc_perm|].
  pose proof (sort_by_score_desc_sorted (List.filter PlacesClient.keep_result results)) as Hs.
  split; [exact Hs|]. intros top rest Heq p Hp. rewrite Heq in Hs, Hp.
  apply Sorted_StronglySorted in Hs; [|intros a b c; unfold score_ge; lia].
  destruct Hp as [<-|Hp]; [lia|]. inversion Hs as [|? ? _ Hall]; subst.
  rewrite List.Forall_forall in Hall. exact (Hall p Hp).
Qed.

(** X6: the sort of _filter_business_results is stable: results with the same business score keep their input order. *)
Theorem _filter_business_results_stable (results : list place) (k : nat) :
  List.filter (fun p => Nat.eqb (PlacesClient.business_score p) k)
    (PlacesClient._filter_business_results results) =
  List.filter (fun p => Nat.eqb (PlacesClient.business_score p) k)
    (List.filter PlacesClient.keep_result results).
Proof. apply sort_by_score_desc_stable. Qed.


Lemma nearby_loop_first retries outcome n : forall s k l,
  (s <= k < s + n)%nat -> (s + n <= retries)%nat ->
  (forall i, (s <= i < k)%nat -> exists e, PlacesClient.nearby_try (outcome i) = Err e) ->
  PlacesClient.nearby_try (outcome k) = Ok l ->
  PlacesClient.nearby_loop retries (seq s n) outcome = Ok l.
Proof.
  induction n as [|n IH]; intros s k l Hk Hn Hprev Hok; [lia|].
  cbn [seq PlacesClient.nearby_loop].
  destruct (Nat.eq_dec k s) as [->|Hne]; [rewrite Hok; reflexivity|].
  destruct (Hprev s ltac:(lia)) as [e He]. rewrite He.
  destruct (Nat.eqb_spec s (retries - 1)) as [Hs|_]; [lia|].
  apply (IH (S s) k l); [lia|lia| |exact Hok]. intros i Hi. apply Hprev. lia.
Qed.

Lemma nearby_loop_fail retries outcome n : forall s,
  (0 < n)%nat -> (s + n = retries)%nat ->
  (forall i, (s <= i < s + n)%nat -> exists e, PlacesClient.nearby_try (outcome i) = Err e) ->
  exists e, PlacesClient.nearby_try (outcome (retries - 1)%nat) = Err e /\
    PlacesClient.nearby_loop retries (seq s n) outcome
    = Err (PlacesClient.nearby_reraise retries (outcome (retries - 1)%nat) e).
Proof.
  induction n as [|n IH]; intros s Hn Hsum Hall; [lia|].
  cbn [seq PlacesClient.nearby_loop].
  destruct (Hall s ltac:(lia)) as [e He]. rewrite He.
  destruct (Nat.eqb_spec s (retries - 1)) as [Hs|Hs].
  - exists e. subst s. split; [exact He|reflexivity].
  - apply (IH (S s)); [lia|lia|]. intros i Hi. apply Hall. lia.
Qed.

(** X7: nearby returns [] when retries is 0, returns the result of the first successful attempt, and when every attempt fails raises the message built from the last attempt's error. *)
Theorem nearby_retries (retries : nat) (outcome : nat -> PlacesClient.places_attempt) :
  (retries = 0%nat -> PlacesClient.nearby retries outcome = Ok []) /\
  (forall k l, (k < retries)%nat ->
     (forall i, (i < k)%nat -> exists e, PlacesClient.nearby_try (outcome i) = Err e) ->
     PlacesClient.nearby_try (outcome k) = Ok l ->
     PlacesClient.nearby retries outcome = Ok l) /\
  ((0 < retries)%nat ->
     (forall i, (i < retries)%nat -> exists e, PlacesClient.nearby_try (outcome i) = Err e) ->
     exists e, PlacesClient.nearby_try (outcome (retries - 1)%nat) = Err e /\
       PlacesClient.nearby retries outcome
       = Err (PlacesClient.nearby_reraise retries (outcome (retries - 1)%nat) e)).
Proof.
  unfold PlacesClient.nearby. split; [|split].
  - intros ->. reflexivity.
  - intros k l Hk Hprev Hok. apply (nearby_loop_first retries outcome retries 0 k l);
      [lia|lia| |exact Hok]. intros i Hi. apply Hprev. lia.
  - intros Hpos Hall. apply (nearby_loop_fail retries outcome retries 0); [lia|lia|].
    intros i Hi. apply Hall. lia.
Qed.


Lemma index0_In {A} (l : list A) x : index0 l = Ok x -> In x l.
Proof. destruct l; cbn; [discriminate|intros [= <-]; left; reflexivity]. Qed.

Lemma deterministic_best_in rows r : deterministic_best rows = Ok (Some r) -> In r rows.
Proof.
  unfold deterministic_best. destruct rows as [|r0 rs]; [discriminate|].
  destruct (py_max (map effective_multiplier (r0 :: rs))) as [m|e]; cbn [res_bind]; [|discriminate].
  set (T := List.filter _ (r0 :: rs)).
  assert (HT : forall x, In x T -> In x (r0 :: rs)) by (intros x Hx; apply filter_In in Hx; tauto).
  destruct (length T =? 1)%nat.
  - destruct (index0 T) as [x|e] eqn:Hi; cbn [res_bind]; [|discriminate].
    intros [= <-]. apply HT, index0_In, Hi.
  - destruct (py_max (map base_multiplier T)) as [mb|e]; cbn [res_bind]; [|discriminate].
    set (B := List.filter _ T).
    assert (HB : forall x, In x B -> In x (r0 :: rs)) by (intros x Hx; apply filter_In in Hx; apply HT; tauto).
    destruct (length B =? 1)%nat.
    + destruct (index0 B) as [x|e] eqn:Hi; cbn [res_bind]; [|discriminate].
      intros [= <-]. apply HB, index0_In, Hi.
    + destruct (index0 (sort_by_card B)) as [x|e] eqn:Hi; cbn [res_bind]; [|discriminate].
      intros [= <-]. apply HB. eapply Permutation_in; [apply sort_by_card_perm|]. apply index0_In, Hi.
Qed.

Lemma build_rows_cards user_cards rewards canonical_category rotating_active :
  map card (build_rows user_cards rewards canonical_category rotating_active) =
  map normalize_card_name user_cards.
Proof. unfold build_rows. rewrite map_map. reflexivity. Qed.

(** Rows of the same card are equal: a row depends on the normalized name only. *)
Lemma build_rows_same_card user_cards rewards canonical_category rotating_active r1 r2 :
  In r1 (build_rows user_cards rewards canonical_category rotating_active) ->
  In r2 (build_rows user_cards rewards canonical_category rotating_active) ->
  card r1 = card r2 -> r1 = r2.
Proof.
  unfold build_rows. intros H1 H2. apply in_map_iff in H1 as [x1 [<- _]].
  apply in_map_iff in H2 as [x2 [<- _]]. unfold build_row at 1 3. cbn [card].
  intros ->. reflexivity.
Qed.

Lemma analyze_card_cases float_repr json_loads loaded md reply :
  In (recommended_card (analyze_location_and_recommend_card float_repr json_loads loaded md reply))
     (map normalize_card_name (wallet_of md)) \/
  recommended_card (analyze_location_and_recommend_card float_repr json_loads loaded md reply)
    = "No specific recommendation".
Proof.
  destruct loaded as [rewards|e];
    [|right; reflexivity].
  destruct (wallet_of md) as [|c cs] eqn:Hw.
  { right. unfold_analyze Hw. reflexivity. }
  unfold_analyze Hw.
  set (rows := build_rows (c :: cs) rewards (canonical_of md) (rotating_of md)).
  assert (Hrows : forall r, In r rows -> In (card r) (map normalize_card_name (c :: cs))).
  { intros r Hr. rewrite <- (build_rows_cards (c :: cs) rewards (canonical_of md) (rotating_of md)).
    apply in_map, Hr. }
  destruct (deterministic_best rows) as [best|e] eqn:Hb; [|right; reflexivity].
  assert (Hbest : forall r, best = Some r -> In (card r) (map normalize_card_name (c :: cs)))
    by (intros r ->; apply Hrows, deterministic_best_in, Hb).
  assert (Hh : forall e cc,
    In (recommended_card (analyze_handler float_repr e (Some best) cc)) (map normalize_card_name (c :: cs)) \/
    recommended_card (analyze_handler float_repr e (Some best) cc) = "No specific recommendation").
  { intros e cc. unfold analyze_handler. destruct best as [r|]; [|right; reflexivity].
    destruct cc; [left; apply Hbest; reflexivity|right; reflexivity]. }
  destruct reply as [e|content]; [apply Hh|].
  destruct (json_loads _) as [v|]; cbv beta iota.
  - destruct v as [| | | | | |kvs]; try apply Hh.
    destruct (negb _ || _).
    + cbn [recommended_card]. destruct best as [r|]; [left; apply Hbest; reflexivity|right; reflexivity].
    + destruct (find _ rows) as [ch|] eqn:Hf; [|apply Hh].
      apply find_some in Hf as [Hch _].
      destruct best as [o|].
      * destruct (negb (String.eqb (card ch) (card o))); cbn [recommended_card]; left;
          [apply Hbest; reflexivity|apply Hrows, Hch].
      * cbn [recommended_card]. left. apply Hrows, Hch.
  - cbn [recommended_card]. destruct best as [r|]; [left; apply Hbest; reflexivity|right; reflexivity].
Qed.


Lemma nearby_try_filtered a l :
  PlacesClient.nearby_try a = Ok l ->
  forall p, In p l -> forall t, In t (types_of p) -> t ∉ PlacesClient.exclude_types.
Proof.
  destruct a as [|code|msg|status results em]; cbn [PlacesClient.nearby_try]; try discriminate.
  destruct (PlacesClient.status_is status "OK").
  - intros [= <-] p Hp. apply filter_business_results_in in Hp as [_ Hk].
    apply keep_result_spec in Hk. exact (proj1 Hk).
  - destruct (PlacesClient.status_is status "ZERO_RESULTS"); [|discriminate].
    intros [= <-] p [].
Qed.

(** X9: PlacesClient.resolve_merchant raises "No places found at coordinates" on an empty list and passes search errors through; otherwise it returns the first place, with the MCC and category of its types, a non-empty category that is "General" when no MCC is found, and confidence 0.85. *)
Theorem resolve_merchant_category :
  PlacesClient.resolve_merchant (Ok []) = Err (mk_exn "Exception" "No places found at coordinates") /\
  (forall e, PlacesClient.resolve_merchant (Err e) = Err e) /\
  (forall top rest, exists info,
     PlacesClient.resolve_merchant (Ok (top :: rest)) = Ok info /\
     PlacesClient.mi_mcc info = PlacesClient._get_mcc_from_types (types_of top) /\
     PlacesClient.mi_category info = PlacesClient._get_category_from_types (types_of top) /\
     str_truthy (PlacesClient.mi_category info) = true /\
     (PlacesClient.mi_mcc info = None -> PlacesClient.mi_category info = "General") /\
     PlacesClient.mi_confidence info = 17 # 20).
Proof.
  split; [reflexivity|split; [reflexivity|]]. intros top rest.
  unfold PlacesClient.resolve_merchant, PlacesClient._get_mcc_from_types,
    PlacesClient._get_category_from_types.
  destruct (map_types_cases (types_of top)) as [[_ ->]|(pre & t & post & m & c & _ & _ & _ & Hc & ->)].
  - eexists. repeat split; reflexivity.
  - destruct (category_mapping_value _ _ Hc) as [Ht _].
    eexists. split; [reflexivity|]. cbn [fst snd PlacesClient.mi_mcc PlacesClient.mi_category str_or].
    rewrite Ht. repeat split; [exact Ht|discriminate].
Qed.

(** X10: the /resolve route answers 404 NO_MERCHANTS_FOUND on no places and 500 with the error text on a search error; otherwise it returns the first place's name, and the MCC and category map_types_to_mcc_category gives for its types (missing together), with confidence 0.8 when an MCC is found and min_confidence otherwise. *)
Theorem resolve_route_confidence (min_confidence : Q) :
  Routes.resolve_merchant min_confidence (Ok []) = HTTPError 404 no_merchants_found /\
  (forall e, Routes.resolve_merchant min_confidence (Err e) = HTTPError 500 (JStr (exn_msg e))) /\
  (forall top rest, exists resp,
     Routes.resolve_merchant min_confidence (Ok (top :: rest)) = HTTPOk resp /\
     Routes.rr_merchant resp = (match pl_name top with Some n => n | None => "Unknown Merchant" end) /\
     Routes.rr_mcc resp = PlacesClient._get_mcc_from_types (types_of top) /\
     Routes.rr_category resp = snd (PlacesClient.map_types_to_mcc_category (types_of top)) /\
     (Routes.rr_mcc resp = None <-> Routes.rr_category resp = None) /\
     (Routes.rr_mcc resp = None -> Routes.rr_confidence resp = min_confidence) /\
     (Routes.rr_mcc resp <> None -> Routes.rr_confidence resp = 4 # 5)).
Proof.
  split; [reflexivity|split; [reflexivity|]]. intros top rest.
  unfold Routes.resolve_merchant, PlacesClient._get_mcc_from_types.
  destruct (map_types_cases (types_of top)) as [[_ ->]|(pre & t & post & m & c & _ & _ & Hm & _ & ->)].
  - eexists. split; [reflexivity|]. cbn. repeat split; tauto.
  - eexists. split; [reflexivity|]. cbn [Routes.rr_mcc Routes.rr_category Routes.rr_confidence
      Routes.rr_merchant fst confidence_of].
    unfold confidence_of. rewrite (mcc_mapping_value _ _ Hm).
    repeat split; discriminate.
Qed.

(** X8: no place returned by nearby has an excluded type. *)
Theorem nearby_results_filtered (retries : nat) (outcome : nat -> PlacesClient.places_attempt)
    (l : list place) :
  PlacesClient.nearby retries outcome = Ok l ->
  forall p, In p l -> forall t, In t (types_of p) -> t ∉ PlacesClient.exclude_types.
Proof.
  unfold PlacesClient.nearby. generalize (seq 0 retries) as attempts.
  induction attempts as [|a rest IH]; cbn [PlacesClient.nearby_loop].
  - intros [= <-] p [].
  - destruct (PlacesClient.nearby_try (outcome a)) as [l'|e] eqn:Ht.
    + intros [= <-]. exact (nearby_try_filtered _ _ Ht).
    + destruct (a =? retries - 1)%nat; [discriminate|exact IH].
Qed.


(** X11: the /mock-visit route answers 500 VISIT_SIMULATION_FAILED on a search error and 404 on no places. Otherwise it reports the first place's name, MCC and category with the route's confidence; when the OpenAI client is unavailable it answers the fixed fallback texts, and when it is available it answers the card and explanation of the recommendation function if the explanation is a string or None, and 500 VISIT_SIMULATION_FAILED with the response's validation error on the "reason" field if not. *)
Theorem mock_visit_outcome (float_repr : Q -> string) (json_loads : string -> option jval)
    (validation_error_str : list (string * jval) -> string)
    (min_confidence : Q) (user_cards : option (list string)) (client : res unit)
    (loaded : res rewards_doc) (reply : collab_reply) (request_id : string) :
  (forall e, Routes.mock_visit float_repr json_loads validation_error_str min_confidence
               user_cards (Err e) client loaded reply request_id =
     HTTPError 500 (Routes.visit_simulation_failed (exn_msg e))) /\
  Routes.mock_visit float_repr json_loads validation_error_str min_confidence user_cards
    (Ok []) client loaded reply request_id = HTTPError 404 no_merchants_found /\
  (forall top rest,
     let merchant := match pl_name top with Some n => n | None => "Unknown Merchant" end in
     let mcc := fst (PlacesClient.map_types_to_mcc_category (types_of top)) in
     let category := snd (PlacesClient.map_types_to_mcc_category (types_of top)) in
     let confidence := confidence_of mcc min_confidence in
     ((exists e, client = Err e) ->
        Routes.mock_visit float_repr json_loads validation_error_str min_confidence user_cards
          (Ok (top :: rest)) client loaded reply request_id =
        HTTPOk (Routes.mk_mock_visit_response merchant category mcc confidence
                  (Some "No specific recommendation")
                  (Some "Unable to analyze location for optimal card recommendation")
                  request_id)) /\
     ((exists u, client = Ok u) ->
        let d := analyze_location_and_recommend_card float_repr json_loads loaded
                   (visit_metadata category mcc (types_of top) user_cards) reply in
        Routes.mock_visit float_repr json_loads validation_error_str min_confidence user_cards
          (Ok (top :: rest)) client loaded reply request_id =
        match explanation d with
        | JStr s =>
            HTTPOk (Routes.mk_mock_visit_response merchant category mcc confidence
                      (Some (recommended_card d)) (Some s) request_id)
        | JNull =>
            HTTPOk (Routes.mk_mock_visit_response merchant category mcc confidence
                      (Some (recommended_card d)) None request_id)
        | v =>
            HTTPError 500 (Routes.visit_simulation_failed
                             (validation_error_str [("reason", v)]))
        end)).
Proof.
  split; [reflexivity|split; [reflexivity|]]. intros top rest. cbv zeta.
  unfold Routes.mock_visit.
  destruct (PlacesClient.map_types_to_mcc_category (types_of top)) as [mcc category].
  cbn [fst snd]. destruct client as [u|e]; split.
  - intros [e He]. discriminate.
  - intros _.
    destruct (analyze_location_and_recommend_card float_repr json_loads loaded
                (visit_metadata category mcc (types_of top) user_cards) reply) as [rc ex].
    destruct ex; reflexivity.
  - intros _. reflexivity.
  - intros [u Hu]. discriminate.
Qed.

(** X12: every successful /mock-visit answer recommends a card of the user's wallet, after name normalization, or "No specific recommendation". *)
Theorem mock_visit_recommends_wallet_card (float_repr : Q -> string)
    (json_loads : string -> option jval) (validation_error_str : list (string * jval) -> string)
    (min_confidence : Q)
    (user_cards : option (list string)) (nearby_places : res (list place)) (client : res unit)
    (loaded : res rewards_doc) (reply : collab_reply) (request_id : string)
    (resp : Routes.mock_visit_response) :
  Routes.mock_visit float_repr json_loads validation_error_str min_confidence user_cards
    nearby_places client loaded reply request_id = HTTPOk resp ->
  exists c, Routes.mv_top_card resp = Some c /\
    (In c (map normalize_card_name (match user_cards with Some l => l | None => [] end)) \/
     c = "No specific recommendation").
Proof.
  unfold Routes.mock_visit.
  destruct nearby_places as [[|top rest]|e]; try discriminate.
  destruct (PlacesClient.map_types_to_mcc_category (types_of top)) as [mcc category].
  destruct client as [u|e].
  - pose proof (analyze_card_cases float_repr json_loads loaded
                  (visit_metadata category mcc (types_of top) user_cards) reply) as Hc.
    destruct (analyze_location_and_recommend_card float_repr json_loads loaded
                (visit_metadata category mcc (types_of top) user_cards) reply) as [rc ex].
    cbn [recommended_card] in Hc.
    destruct ex; try discriminate; intros [= <-]; cbn [Routes.mv_top_card];
      exists rc; (split; [reflexivity|exact Hc]).
  - intros [= <-]. cbn [Routes.mv_top_card]. eexists. split; [reflexivity|]. right. reflexivity.
Qed.

(** X13: in the rows built for a /mock-visit request no rotating multiplier is ever applied, since the route passes no active rotating categories. *)
Theorem mock_visit_no_rotating (category mcc : option string) (place_types : list string)
    (user_cards : option (list string)) (rewards : rewards_doc) (r : row) :
  In r (build_rows (wallet_of (visit_metadata category mcc place_types user_cards)) rewards
          (canonical_of (visit_metadata category mcc place_types user_cards))
          (rotating_of (visit_metadata category mcc place_types user_cards))) ->
  rotating_multiplier r = 0.
Proof.
  unfold build_rows. intros Hin. apply in_map_iff in Hin as [x [<- _]].
  unfold build_row. cbn [rotating_multiplier].
  destruct (cc_of _) as [k|]; [|reflexivity].
  replace (rotating_of (visit_metadata category mcc place_types user_cards)) with (@nil string)
    by reflexivity.
  rewrite andb_false_r. reflexivity.
Qed.

(** X14: for a /mock-visit request the recommendation function sees no canonical category exactly when no place type has an MCC and no place type is a recognized tag. *)
Theorem mock_visit_canonical_category (place_types : list string)
    (user_cards : option (list string)) :
  canonical_of (visit_metadata (snd (PlacesClient.map_types_to_mcc_category place_types))
                  (fst (PlacesClient.map_types_to_mcc_category place_types))
                  place_types user_cards) = None <->
  Forall (fun t => table_get PlacesClient.mcc_mapping t = None) place_types /\
  first_type_match (map py_lower place_types) = None.
Proof.
  unfold canonical_of, visit_metadata. cbn [lm_category lm_mcc lm_place_types].
  destruct (map_types_cases place_types) as [[Hall ->]|(pre & t & post & m & c & -> & Hpre & Ht & Hc & ->)];
    cbn [fst snd]; unfold canonicalize_category.
  - replace (table_get mcc_map (py_strip "")) with (@None string) by reflexivity.
    destruct (first_type_match _); split; try discriminate; tauto.
  - destruct (category_mapping_value _ _ Hc) as [Htr _].
    split.
    + destruct (table_get mcc_map _); [discriminate|].
      destruct (first_type_match _); [discriminate|]. rewrite Htr.
      destruct (table_get cat_alias _); discriminate.
    + intros [Hall _]. apply Forall_app in Hall as [_ Hall].
      inversion Hall as [|? ? Hn]; cbv beta in Hn; congruence.
Qed.



(** X15: build_rows yields one row per wallet card, in wallet order, named by the normalized card name; a card with no reward entries gets the row (0, 0, base 1, effective 1). *)
Theorem build_rows_cards_and_defaults (user_cards : list string) (rewards : rewards_doc)
    (canonical_category : option string) (rotating_active : list string) :
  map card (build_rows user_cards rewards canonical_category rotating_active) =
    map normalize_card_name user_cards /\
  (forall i c, nth_error user_cards i = Some c ->
     card_rewards (cards_of rewards) (normalize_card_name c) = ∅ ->
     nth_error (build_rows user_cards rewards canonical_category rotating_active) i =
       Some (mk_row (normalize_card_name c) 0 0 1 1)).
Proof.
  split; [apply build_rows_cards|]. intros i c Hi He.
  unfold build_rows. rewrite nth_error_map, Hi. cbn [option_map]. f_equal.
  unfold build_row. rewrite He.
  destruct (cc_of canonical_category) as [k|]; rewrite !lookup_empty; [|reflexivity].
  cbn [or_float]. destruct (str_truthy k); [|reflexivity].
  destruct (Qeq_bool 0 0 && str_mem k travel_subcats); destruct (str_mem k rotating_active);
    reflexivity.
Qed.

(** X16: no row built by build_rows has a base multiplier of 0: a zero or missing base rate becomes 1. *)
Theorem build_rows_base_nonzero (user_cards : list string) (rewards : rewards_doc)
    (canonical_category : option string) (rotating_active : list string) (r : row) :
  In r (build_rows user_cards rewards canonical_category rotating_active) ->
  ~ base_multiplier r == 0.
Proof.
  unfold build_rows. intros Hin. apply in_map_iff in Hin as [x [<- _]].
  unfold build_row. cbn [base_multiplier]. unfold or_float.
  destruct (_ !! "everything_else") as [q|]; [|discriminate].
  destruct (Qeq_bool q 0) eqn:Hq; [discriminate|].
  intros H. apply Qeq_bool_iff in H. congruence.
Qed.

(** X17: the recommendation function always recommends a card of the wallet, after name normalization, or "No specific recommendation". *)
Theorem analyze_recommends_wallet_card (float_repr : Q -> string)
    (json_loads : string -> option jval) (loaded : res rewards_doc)
    (md : location_metadata) (reply : collab_reply) :
  In (recommended_card (analyze_location_and_recommend_card float_repr json_loads loaded md reply))
     (map normalize_card_name (wallet_of md)) \/
  recommended_card (analyze_location_and_recommend_card float_repr json_loads loaded md reply)
    = "No specific recommendation".
Proof. apply analyze_card_cases. Qed.

(** X18: when the rewards document fails to load, the recommendation function returns "No specific recommendation" with the explanation "Unable to compute optimal card: " followed by the error message, whatever the wallet and the reply. *)
Theorem analyze_load_failure (float_repr : Q -> string) (json_loads : string -> option jval)
    (e : exn) (md : location_metadata) (reply : collab_reply) :
  analyze_location_and_recommend_card float_repr json_loads (Err e) md reply =
  mk_decision "No specific recommendation"
    (JStr ("Unable to compute optimal card: " ++ exn_msg e)).
Proof. reflexivity. Qed.

(** X19: when the collaborator's reply names the deterministic best card, that card is returned with the reply's explanation if it is truthy, and with "<card> wins with <x>x on <category>." otherwise. *)
Theorem analyze_accepts_explanation (float_repr : Q -> string)
    (json_loads : string -> option jval) (rewards : rewards_doc) (md : location_metadata)
    (content : option string) (kvs : list (string * jval)) (best : row) :
  wallet_of md <> [] ->
  deterministic_best (build_rows (wallet_of md) rewards (canonical_of md) (rotating_of md))
    = Ok (Some best) ->
  json_loads (py_strip (match content with Some c => c | None => "" end)) = Some (JObj kvs) ->
  obj_get kvs "recommended_card" = Some (JStr (card best)) ->
  analyze_location_and_recommend_card float_repr json_loads (Ok rewards) md
    (CollabReturns content) =
  mk_decision (card best)
    (match obj_get kvs "explanation" with
     | Some v => if py_truthy (Some v) then v
                 else JStr (wins_text float_repr best (canonical_of md) ".")
     | None => JStr (wins_text float_repr best (canonical_of md) ".")
     end).
Proof.
  intros Hne Hb Hj Hn. destruct (wallet_of md) as [|c cs] eqn:Hw; [congruence|].
  unfold_analyze Hw. rewrite Hb, Hj. cbv beta iota. rewrite Hn.
  pose proof (deterministic_best_in _ _ Hb) as Hin.
  assert (Hmem : In (card best) (map card (build_rows (c :: cs) rewards (canonical_of md) (rotating_of md))))
    by (apply in_map, Hin).
  rewrite (str_mem_In _ _ Hmem). cbn [negb orb].
  destruct (find_card _ _ Hmem) as [chosen [Hf Hc]]. rewrite Hf.
  apply find_some in Hf as [Hchosen _].
  rewrite (build_rows_same_card _ _ _ _ _ _ Hchosen Hin Hc).
  rewrite String.eqb_refl. reflexivity.
Qed.


(** ** Proofs: lowercasing and stripping *)

Lemma py_lower_char_idem (c : ascii) : py_lower_char (py_lower_char c) = py_lower_char c.
Proof. destruct c as [[] [] [] [] [] [] [] []]; reflexivity. Qed.

Lemma py_is_space_lower (c : ascii) : py_is_space (py_lower_char c) = py_is_space c.
Proof. destruct c as [[] [] [] [] [] [] [] []]; reflexivity. Qed.

Lemma list_ascii_of_py_lower (s : string) :
  list_ascii_of_string (py_lower s) = map py_lower_char (list_ascii_of_string s).
Proof. induction s as [|a s IH]; cbn; [reflexivity|]. rewrite IH. reflexivity. Qed.

Lemma py_lower_of_list (l : list ascii) :
  py_lower (string_of_list_ascii l) = string_of_list_ascii (map py_lower_char l).
Proof. induction l as [|a l IH]; cbn; [reflexivity|]. rewrite IH. reflexivity. Qed.

Lemma lstrip_chars_lower (l : list ascii) :
  lstrip_chars (map py_lower_char l) = map py_lower_char (lstrip_chars l).
Proof.
  induction l as [|a l IH]; cbn; [reflexivity|].
  rewrite py_is_space_lower. destruct (py_is_space a); [exact IH|reflexivity].
Qed.

Lemma py_lower_strip (s : string) : py_lower (py_strip s) = py_strip (py_lower s).
Proof.
  unfold py_strip. rewrite py_lower_of_list, list_ascii_of_py_lower.
  rewrite lstrip_chars_lower, <- List.map_rev, lstrip_chars_lower, <- List.map_rev.
  reflexivity.
Qed.

Lemma py_lower_idem (s : string) : py_lower (py_lower s) = py_lower s.
Proof. induction s as [|a s IH]; cbn; [reflexivity|]. rewrite py_lower_char_idem, IH. reflexivity. Qed.

Lemma lstrip_chars_suffix (l : list ascii) : exists p, l = (p ++ lstrip_chars l)%list.
Proof.
  induction l as [|a l [p Hp]]; cbn; [exists []; reflexivity|].
  destruct (py_is_space a); [exists (a :: p); cbn; congruence|exists []; reflexivity].
Qed.

Lemma lstrip_chars_head (l : list ascii) :
  lstrip_chars l = [] \/ exists c t, lstrip_chars l = c :: t /\ py_is_space c = false.
Proof.
  induction l as [|a l IH]; cbn; [left; reflexivity|].
  destruct (py_is_space a) eqn:Ha; [exact IH|right; eauto].
Qed.

Lemma lstrip_chars_fix (l : list ascii) :
  (l = [] \/ exists c t, l = c :: t /\ py_is_space c = false) -> lstrip_chars l = l.
Proof. intros [->|(c & t & -> & Hc)]; cbn; [reflexivity|]. rewrite Hc. reflexivity. Qed.

Lemma lstrip_chars_idem (l : list ascii) : lstrip_chars (lstrip_chars l) = lstrip_chars l.
Proof. apply lstrip_chars_fix, lstrip_chars_head. Qed.

Lemma strip_list_idem (l : list ascii) :
  rev (lstrip_chars (rev (lstrip_chars (rev (lstrip_chars (rev (lstrip_chars l))))))) =
  rev (lstrip_chars (rev (lstrip_chars l))).
Proof.
  set (A := lstrip_chars l). set (C := lstrip_chars (rev A)).
  assert (HC : lstrip_chars (rev C) = rev C).
  { destruct (lstrip_chars_suffix (rev A)) as [p Hp]. fold C in Hp.
    assert (HA : A = (rev C ++ rev p)%list) by (rewrite <- rev_app_distr, <- Hp, rev_involutive; reflexivity).
    apply lstrip_chars_fix. destruct (rev C) as [|d u] eqn:E; [left; reflexivity|right].
    exists d, u. split; [reflexivity|].
    destruct (lstrip_chars_head l) as [Hn|(c & t & Ht & Hc)].
    - fold A in Hn. rewrite Hn in HA. discriminate.
    - fold A in Ht. rewrite Ht in HA. cbn in HA. injection HA as -> _. exact Hc. }
  rewrite HC, rev_involutive. unfold C. rewrite lstrip_chars_idem. reflexivity.
Qed.

Lemma py_strip_idem (s : string) : py_strip (py_strip s) = py_strip s.
Proof.
  unfold py_strip at 1 2. rewrite list_ascii_of_string_of_list_ascii.
  rewrite strip_list_idem. reflexivity.
Qed.

Lemma lc_idem (s : string) : lc (lc s) = lc s.
Proof.
  unfold lc. rewrite py_lower_strip, py_lower_idem, py_strip_idem. reflexivity.
Qed.

Lemma table_values_lc (t : list (string * string)) k v :
  forallb (fun kv => String.eqb (lc (snd kv)) (snd kv)) t = true ->
  table_get t k = Some v -> lc v = v.
Proof.
  intros Hall Hk. apply table_get_In in Hk.
  pose proof (proj1 (forallb_forall _ _) Hall _ Hk) as H. apply String.eqb_eq, H.
Qed.

Lemma first_type_match_value types c :
  first_type_match types = Some c -> exists t, table_get type_map t = Some c.
Proof.
  induction types as [|t ts IH]; cbn [first_type_match]; [discriminate|].
  destruct (table_get type_map t) eqn:Ht; [intros [= <-]; eauto|exact IH].
Qed.

Lemma table_values_alias (t : list (string * string)) k v :
  forallb (fun kv => match table_get cat_alias (snd kv) with
                     | None => true
                     | Some a => String.eqb a (snd kv)
                     end) t = true ->
  table_get t k = Some v ->
  table_get cat_alias v = None \/ table_get cat_alias v = Some v.
Proof.
  intros Hall Hk. apply table_get_In in Hk.
  pose proof (proj1 (forallb_forall _ _) Hall _ Hk) as H. cbn [snd] in H.
  destruct (table_get cat_alias v) as [a|]; [right|left; reflexivity].
  apply String.eqb_eq in H. subst a. reflexivity.
Qed.

(** X20: every category returned by canonicalize_category is already lowercased and stripped, and canonicalizing it again as free text (with no MCC and no place types) returns it unchanged when it is non-empty, and None when it is empty; build_rows's lowercasing also leaves it unchanged. *)
Theorem canonicalize_category_lc_stable (category mcc : option string)
    (place_types : option (list string)) (c : string) :
  canonicalize_category category mcc place_types = Some c ->
  lc c = c /\
  canonicalize_category (Some c) None None = (if str_truthy c then Some c else None) /\
  cc_of (Some c) = (if str_truthy c then Some c else None).
Proof.
  intros H.
  assert (Hlc : lc c = c /\ (table_get cat_alias c = None \/ table_get cat_alias c = Some c)).
  { unfold canonicalize_category in H.
    destruct (table_get mcc_map _) as [m|] eqn:Hm.
    - injection H as <-. split; [exact (table_values_lc mcc_map _ _ eq_refl Hm)|].
      exact (table_values_alias mcc_map _ _ eq_refl Hm).
    - destruct (first_type_match _) as [m|] eqn:Ht.
      + injection H as <-. destruct (first_type_match_value _ _ Ht) as [t Htm].
        split; [exact (table_values_lc type_map _ _ eq_refl Htm)|].
        exact (table_values_alias type_map _ _ eq_refl Htm).
      + destruct category as [cat|]; [|discriminate].
        destruct (str_truthy cat); [|discriminate].
        destruct (table_get cat_alias _) as [a|] eqn:Ha.
        * injection H as <-. split; [exact (table_values_lc cat_alias _ _ eq_refl Ha)|].
          exact (table_values_alias cat_alias _ _ eq_refl Ha).
        * injection H as <-. split; [apply lc_idem|left; exact Ha]. }
  destruct Hlc as [Hlc Ha]. split; [exact Hlc|split].
  - change (canonicalize_category (Some c) None None) with
      (if str_truthy c then
         match table_get cat_alias (lc c) with Some a => Some a | None => Some (lc c) end
       else None).
    rewrite Hlc. destruct (str_truthy c); [|reflexivity].
    destruct Ha as [-> | ->]; reflexivity.
  - unfold cc_of. rewrite Hlc. reflexivity.
Qed.

(** ** Witnesses: further properties at concrete inputs *)

Lemma map_types_to_mcc_category_first_match_witness :
  exists category,
    table_get PlacesClient.category_mapping "cafe" = Some category /\
    PlacesClient.map_types_to_mcc_category (["locality"] ++ "cafe" :: ["store"])%list
      = (Some "5812", Some category).
Proof.
  apply (map_types_to_mcc_category_first_match ["locality"] "cafe" ["store"] "5812");
    [repeat constructor|reflexivity].
Defined.

Lemma _get_category_from_types_general_witness :
  PlacesClient._get_category_from_types ["campground"] = "General" /\
  (PlacesClient._get_category_from_types ([] ++ "establishment" :: ["store"])%list = "General" <->
   "establishment" = "establishment" \/ "establishment" = "point_of_interest").
Proof.
  split.
  - apply (proj1 _get_category_from_types_general). repeat constructor.
  - apply (proj2 _get_category_from_types_general [] "establishment" ["store"] "5999");
      [constructor|reflexivity].
Defined.

Lemma _filter_business_results_membership_witness :
  In cafe_place (PlacesClient._filter_business_results [city_place; cafe_place]).
Proof.
  apply (proj2 (_filter_business_results_membership [city_place; cafe_place] cafe_place
                  ltac:(right; left; reflexivity))).
  split.
  - intros t Ht. apply (bool_decide_unpack _). vm_compute in Ht.
    destruct Ht as [<-|[<-|[<-|[<-|[]]]]]; vm_compute; exact I.
  - left. exists "cafe". split; [left; reflexivity|].
    apply (bool_decide_unpack _). vm_compute. exact I.
Defined.

Lemma _filter_business_results_sorted_witness :
  (PlacesClient.business_score unnamed_store <= PlacesClient.business_score cafe_place)%nat.
Proof.
  refine (proj2 (proj2 (_filter_business_results_sorted [unnamed_store; city_place; cafe_place]))
            cafe_place [unnamed_store] _ unnamed_store _);
    [vm_compute; reflexivity|vm_compute; right; left; reflexivity].
Defined.

Lemma nearby_retries_witness :
  PlacesClient.nearby 3%nat retry_outcome = Ok [cafe_place].
Proof.
  apply (proj1 (proj2 (nearby_retries 3 retry_outcome)) 1%nat [cafe_place]).
  - lia.
  - intros i Hi. assert (i = 0%nat) as -> by lia. eexists. reflexivity.
  - vm_compute. reflexivity.
Defined.

Lemma nearby_results_filtered_witness : "cafe" ∉ PlacesClient.exclude_types.
Proof.
  refine (nearby_results_filtered 3%nat retry_outcome [cafe_place] _ cafe_place _ "cafe" _);
    [vm_compute; reflexivity|left; reflexivity|left; reflexivity].
Defined.

Lemma resolve_merchant_category_witness :
  exists info, PlacesClient.resolve_merchant (Ok [campground_place]) = Ok info /\
    PlacesClient.mi_category info = "General".
Proof.
  destruct (proj2 (proj2 resolve_merchant_category) campground_place [])
    as (info & H1 & H2 & _ & _ & H5 & _).
  exists info. split; [exact H1|]. apply H5. rewrite H2. reflexivity.
Defined.

Lemma resolve_route_confidence_witness :
  exists resp, Routes.resolve_merchant (1 # 2) (Ok [cafe_place]) = HTTPOk resp /\
    Routes.rr_confidence resp = 4 # 5.
Proof.
  destruct (proj2 (proj2 (resolve_route_confidence (1 # 2))) cafe_place [])
    as (resp & H1 & _ & H3 & _ & _ & _ & H6).
  exists resp. split; [exact H1|]. apply H6. rewrite H3. vm_compute. discriminate.
Defined.

Lemma mock_visit_outcome_witness :
  Routes.mock_visit example_float_repr int_explanation_json_loads field_names_error (1 # 2)
    (Some ["amex gold"; "Citi Custom Cash"]) (Ok [cafe_place]) (Ok tt)
    (Ok example_rewards)
    (CollabReturns (Some "recommended_card: Citi Custom Cash; explanation: 5")) "req-1"
  = HTTPError 500 (Routes.visit_simulation_failed "reason").
Proof.
  pose proof (proj2 (proj2 (proj2 (mock_visit_outcome example_float_repr
      int_explanation_json_loads field_names_error (1 # 2)
      (Some ["amex gold"; "Citi Custom Cash"]) (Ok tt) (Ok example_rewards)
      (CollabReturns (Some "recommended_card: Citi Custom Cash; explanation: 5")) "req-1"))
      cafe_place []) (ex_intro _ tt eq_refl)) as H.
  cbv zeta in H. rewrite H. vm_compute. reflexivity.
Defined.

Lemma mock_visit_recommends_wallet_card_witness :
  exists c,
    Routes.mv_top_card
      (Routes.mk_mock_visit_response "Blue Bottle Coffee" (Some "Dining") (Some "5812") (4 # 5)
         (Some "Citi Custom Cash")
         (Some "Citi Custom Cash wins with 5.0x on dining (fallback).") "req-2") = Some c /\
    (In c (map normalize_card_name ["amex gold"; "Citi Custom Cash"]) \/
     c = "No specific recommendation").
Proof.
  apply (mock_visit_recommends_wallet_card example_float_repr example_json_loads
           field_names_error (1 # 2)
           (Some ["amex gold"; "Citi Custom Cash"]) (Ok [cafe_place]) (Ok tt)
           (Ok example_rewards) (CollabRaises (mk_exn "APITimeoutError" "Request timed out."))
           "req-2").
  vm_compute. reflexivity.
Defined.

Lemma mock_visit_no_rotating_witness :
  rotating_multiplier
    (hd (mk_row "" 0 0 0 0)
       (build_rows (wallet_of (visit_metadata (Some "Dining") (Some "5812") ["restaurant"]
                                 (Some ["Citi Custom Cash"])))
          rotating_rewards
          (canonical_of (visit_metadata (Some "Dining") (Some "5812") ["restaurant"]
                           (Some ["Citi Custom Cash"])))
          (rotating_of (visit_metadata (Some "Dining") (Some "5812") ["restaurant"]
                          (Some ["Citi Custom Cash"]))))) = 0.
Proof.
  apply (mock_visit_no_rotating (Some "Dining") (Some "5812") ["restaurant"]
           (Some ["Citi Custom Cash"]) rotating_rewards).
  vm_compute. left. reflexivity.
Defined.


Lemma build_rows_cards_and_defaults_witness :
  nth_error (build_rows ["Store Card"; "Amex Gold"] example_rewards (Some "dining") []) 0%nat
  = Some (mk_row "Store Card" 0 0 1 1).
Proof.
  apply (proj2 (build_rows_cards_and_defaults ["Store Card"; "Amex Gold"] example_rewards
                  (Some "dining") []) 0%nat "Store Card"); vm_compute; reflexivity.
Defined.

Lemma build_rows_base_nonzero_witness :
  ~ base_multiplier (hd (mk_row "" 0 0 0 0) (build_rows ["Debit"] zero_base_rewards None [])) == 0.
Proof.
  apply (build_rows_base_nonzero ["Debit"] zero_base_rewards None []).
  vm_compute. left. reflexivity.
Defined.

Lemma analyze_accepts_explanation_witness :
  analyze_location_and_recommend_card example_float_repr accept_json_loads (Ok example_rewards)
    example_md (CollabReturns (Some "recommended_card: Citi Custom Cash"))
  = mk_decision "Citi Custom Cash" (JStr "5x on dining").
Proof.
  apply (analyze_accepts_explanation example_float_repr accept_json_loads example_rewards
           example_md (Some "recommended_card: Citi Custom Cash")
           [("recommended_card", JStr "Citi Custom Cash"); ("explanation", JStr "5x on dining")]
           (mk_row "Citi Custom Cash" 5 0 1 5));
    [discriminate|vm_compute; reflexivity|vm_compute; reflexivity|vm_compute; reflexivity].
Defined.

Lemma canonicalize_category_lc_stable_witness :
  lc "pet stores" = "pet stores" /\
  canonicalize_category (Some "pet stores") None None = Some "pet stores" /\
  cc_of (Some "pet stores") = Some "pet stores".
Proof.
  apply (canonicalize_category_lc_stable (Some "  Pet Stores ") None None "pet stores").
  vm_compute. reflexivity.
Defined.
